(** * Verification of the video-generation pipeline of cortana-mega-bot

    Shallow embedding of [src/modules/video_gen.py]:
    - [VideoSession], the per-user session state machine;
    - [VideoGenerator], the mock and real generation paths together with
      the polling loop.

    Python values that cross the HTTP boundary are modelled by [pyval];
    effects (clock, network, file system, sleeping) are threaded through
    an explicit world that records every effect in a trace. *)

From Stdlib Require Import ZArith Lia.
From stdpp Require Import base option list strings gmap.

#[local] Set Warnings "-register-all".

Local Open Scope string_scope.
Local Open Scope Z_scope.
Local Open Scope list_scope.

(** ** Python values *)

(** The values the module manipulates: what [response.json()] can yield
    and what the result dictionaries hold.  JSON floats are not
    represented; a dictionary decoded from JSON is kept as an association
    list read with first-match lookup. *)
Inductive pyval : Type :=
  | PyNone
  | PyBool (b : bool)
  | PyInt (z : Z)
  | PyStr (s : string)
  | PyList (l : list pyval)
  | PyDict (d : list (string * pyval)).

(** Python truthiness, as used by [not x], [if x] and [x and y]. *)
Definition truthy (v : pyval) : bool :=
  match v with
  | PyNone => false
  | PyBool b => b
  | PyInt z => negb (z =? 0)
  | PyStr s => negb (String.eqb s "")
  | PyList l => match l with [] => false | _ => true end
  | PyDict d => match d with [] => false | _ => true end
  end.

(** [a and b]: the left operand when it is falsy, the right one otherwise. *)
Definition py_and (a b : pyval) : pyval := if truthy a then b else a.

(** ** VideoSession *)

Module VideoSession.

(** The four string literals the [state] attribute ever holds. *)
Inductive session_state : Type :=
| idle
| collecting_photos
| waiting_for_prompt
| processing.

#[global] Instance session_state_eq_dec : EqDecision session_state.
Proof. solve_decision. Defined.

Record t : Type := mk {
state : session_state;
photos : list string;
prompt : string
}.

(** [__init__] and [create_video_session]. *)
Definition create_video_session : t :=
{| state := idle; photos := []; prompt := "" |}.

Definition reset (s : t) : t :=
{| state := idle; photos := []; prompt := "" |}.

(** [add_photo] returns the boolean together with the session after the
  call: the first [if] may already have moved [idle] to
  [collecting_photos] when the second one is evaluated. *)
Definition add_photo (photo_path : string) (s : t) : bool * t :=
let s1 :=
  if decide (state s = idle)
  then {| state := collecting_photos; photos := photos s; prompt := prompt s |}
  else s in
if decide (state s1 = collecting_photos) then
  if (Z.of_nat (length (photos s1)) <? 4)
  then (true, {| state := state s1;
                 photos := photos s1 ++ [photo_path];
                 prompt := prompt s1 |})
  else (false, s1)
else (false, s1).

Definition set_prompt (text : string) (s : t) : t :=
{| state := waiting_for_prompt; photos := photos s; prompt := text |}.

Definition start_processing (s : t) : t :=
{| state := processing; photos := photos s; prompt := prompt s |}.

(** [len(self.photos) >= 1 and self.prompt and self.state == "waiting_for_prompt"]:
  the value of the chain is the first falsy operand, so the method can
  return the (empty) prompt string itself. *)
Definition is_ready (s : t) : pyval :=
py_and (PyBool (1 <=? Z.of_nat (length (photos s))))
  (py_and (PyStr (prompt s))
     (PyBool (bool_decide (state s = waiting_for_prompt)))).

(** The mutating operations of the class. *)
Inductive op : Type :=
| AddPhoto (photo_path : string)
| SetPrompt (text : string)
| StartProcessing
| Reset.

Definition step (o : op) (s : t) : t :=
match o with
| AddPhoto p => snd (add_photo p s)
| SetPrompt text => set_prompt text s
| StartProcessing => start_processing s
| Reset => reset s
end.

(** Whether every prompt text passed by a call satisfies [P]. *)
Definition op_texts (P : string → Prop) (o : op) : Prop :=
match o with
| SetPrompt text => P text
| _ => True
end.

(** Sessions obtained from a fresh one by a sequence of operations whose
  prompt texts all satisfy [P]. *)
Inductive reachable_by (P : string → Prop) : t → Prop :=
| reach_init : reachable_by P create_video_session
| reach_step s o :
    reachable_by P s → op_texts P o → reachable_by P (step o s).

Definition reachable : t → Prop := reachable_by (λ _, True).

End VideoSession.

(** ** Effects *)

(** A raised Python exception: whether its class derives from
    [Exception] (the only ones [except Exception] catches; task
    cancellation and interpreter signals do not) and its [str()]. *)
Record exn : Type := mk_exn {
  exn_is_Exception : bool;
  exn_str : string
}.

(** How a computation ends.  [NoFuel] is not a Python outcome: it says
    that the bound given to the model of the [while] loop was too small. *)
Inductive outcome (A : Type) : Type :=
  | Ret (a : A)
  | Raise (e : exn)
  | NoFuel.
Arguments Ret {A} a.
Arguments Raise {A} e.
Arguments NoFuel {A}.

(** The three kinds of calls made on the [httpx] client. *)
Inductive request : Type :=
  | PostFile (url : string) (photo_path : string) (bearer : string)
  | PostJson (url : string) (payload : pyval) (bearer : string)
  | Get (url : pyval) (bearer : option string).

(** What the module reads of an [httpx.Response]. *)
Record Response : Type := mk_response {
  status_code : Z;
  text : string;
  json : outcome pyval;
  content : string
}.

(** Every effect of the module, in the order it happens. *)
Inductive event : Type :=
  | EvUuid
  | EvNow
  | EvSleep (seconds : Z)
  | EvOpen (path : string)
  | EvHttp (r : request)
  | EvMkdir (dir : string)
  | EvTouch (path : string)
  | EvWriteBytes (path : string) (data : string).

(** The world outside the module.  Each oracle sees the events so far
    (newest first), so a remote service or a clock may behave in any way
    that depends on the history of the run.  The last fields stand for
    library functions that are not part of the repository. *)
Record Env : Type := mk_env {
  env_uuid4_hex : list event → string;
  (** [datetime.now()], in microseconds *)
  env_now : list event → Z;
  (** [open(path, "rb")]: the exception raised, if any *)
  env_open : list event → string → option exn;
  env_http : list event → request → outcome Response;
  (** [mkdir(exist_ok=True)], [touch()], [write_bytes()]: the exception raised, if any *)
  env_fs : list event → event → option exn;
  (** [str(Path(dir) / name)] *)
  env_path_join : string → string → string;
  (** what [v[key]] raises when [v] is not a dictionary holding [key] *)
  env_subscript_error : pyval → string → exn;
  (** what [v.get] raises when [v] is not a dictionary *)
  env_attribute_error : pyval → exn;
  (** [str(v)] for the values that are not strings *)
  env_str : pyval → string
}.

Record World : Type := mk_world {
  trace : list event;
  files : gmap string string
}.

Definition record_event (e : event) (w : World) : World :=
  {| trace := e :: trace w; files := files w |}.

(** The requests issued so far, newest first. *)
Definition network_calls (tr : list event) : list request :=
  omap (λ e, match e with EvHttp r => Some r | _ => None end) tr.

(** State first, then failure: an exception leaves the effects made
    before it in place. *)
Definition M (A : Type) : Type := World → outcome A * World.

Definition ret {A} (a : A) : M A := λ w, (Ret a, w).

Definition bind {A B} (c : M A) (k : A → M B) : M B :=
  λ w, match c w with
       | (Ret a, w') => k a w'
       | (Raise e, w') => (Raise e, w')
       | (NoFuel, w') => (NoFuel, w')
       end.

Definition lift {A} (o : outcome A) : M A := λ w, (o, w).

Declare Scope py_scope.
Delimit Scope py_scope with py.
Notation "x <- c ;; k" := (bind c (λ x, k))
  (at level 100, c at next level, right associativity) : py_scope.
Notation "c ;; k" := (bind c (λ _, k))
  (at level 100, right associativity) : py_scope.
Local Open Scope py_scope.

(** [try: body  except Exception as e: handler e]. *)
Definition try_except {A} (body : M A) (handler : exn → M A) : M A :=
  λ w, match body w with
       | (Raise e, w') =>
           if exn_is_Exception e then handler e w' else (Raise e, w')
       | r => r
       end.

Definition raise_if (o : option exn) : outcome unit :=
  match o with
  | None => Ret tt
  | Some e => Raise e
  end.

Section Primitives.
Context (E : Env).

Definition uuid4_hex : M string :=
  λ w, (Ret (env_uuid4_hex E (trace w)), record_event EvUuid w).

Definition datetime_now : M Z :=
  λ w, (Ret (env_now E (trace w)), record_event EvNow w).

Definition sleep (seconds : Z) : M unit :=
  λ w, (Ret tt, record_event (EvSleep seconds) w).

Definition open_rb (path : string) : M unit :=
  λ w, (raise_if (env_open E (trace w) path), record_event (EvOpen path) w).

Definition http (r : request) : M Response :=
  λ w, (env_http E (trace w) r, record_event (EvHttp r) w).

Definition mkdir (dir : string) : M unit :=
  λ w, (raise_if (env_fs E (trace w) (EvMkdir dir)),
        record_event (EvMkdir dir) w).

(** [touch] creates the file when it is missing and keeps its content
    otherwise. *)
Definition touch (path : string) : M unit :=
  λ w, match env_fs E (trace w) (EvTouch path) with
       | Some e => (Raise e, record_event (EvTouch path) w)
       | None =>
           (Ret tt,
            {| trace := EvTouch path :: trace w;
               files := match files w !! path with
                        | Some _ => files w
                        | None => <[path := ""]> (files w)
                        end |})
       end.

Definition write_bytes (path data : string) : M unit :=
  λ w, match env_fs E (trace w) (EvWriteBytes path data) with
       | Some e => (Raise e, record_event (EvWriteBytes path data) w)
       | None =>
           (Ret tt,
            {| trace := EvWriteBytes path data :: trace w;
               files := <[path := data]> (files w) |})
       end.

(** [v[key]] *)
Definition py_getitem (v : pyval) (key : string) : outcome pyval :=
  match v with
  | PyDict d =>
      match list_find (λ kv, fst kv = key) d with
      | Some (_, (_, x)) => Ret x
      | None => Raise (env_subscript_error E v key)
      end
  | _ => Raise (env_subscript_error E v key)
  end.

(** [v.get(key, default)] *)
Definition py_get (v : pyval) (key : string) (default : pyval) : outcome pyval :=
  match v with
  | PyDict d =>
      match list_find (λ kv, fst kv = key) d with
      | Some (_, (_, x)) => Ret x
      | None => Ret default
      end
  | _ => Raise (env_attribute_error E v)
  end.

(** A value interpolated in an f-string. *)
Definition py_format (v : pyval) : string :=
  match v with
  | PyStr s => s
  | _ => env_str E v
  end.

End Primitives.

(** ** VideoGenerator *)

(** The fields of [Config] the generator reads.  [video_storage_path] is
    the [Path] it holds, written as a string. *)
Record Config : Type := mk_config {
  seedance_api_key : string;
  seedance_api_url : string;
  mock_mode : bool;
  video_storage_path : string
}.

(** [v == s] for a string literal [s]. *)
Definition py_eq_str (v : pyval) (s : string) : bool :=
  match v with
  | PyStr s' => String.eqb s' s
  | _ => false
  end.

(** [timedelta.seconds]: the seconds field of the normalised difference
    (days, seconds, microseconds), not the total number of seconds. *)
Definition timedelta_seconds (microseconds : Z) : Z :=
  (microseconds / 1000000) mod 86400.

Module VideoGenerator.
Section Generator.
Context (E : Env) (config : Config).

Definition failed_result (job_id error : pyval) : gmap string pyval :=
  list_to_map
    [("job_id", job_id); ("status", PyStr "failed"); ("error", error)].

Definition _mock_generate (job_id prompt : string) (photos : list string)
  : M (gmap string pyval) :=
  sleep 2 ;;
  let videos_dir := video_storage_path config in
  mkdir E videos_dir ;;
  let video_filename := job_id +:+ ".mp4" in
  let video_path := env_path_join E videos_dir video_filename in
  touch E video_path ;;
  ret (list_to_map
         [("job_id", PyStr job_id);
          ("status", PyStr "completed");
          ("video_path", PyStr video_path);
          ("prompt", PyStr prompt);
          ("message", PyStr "Video generated (mock mode - until Feb 24)")]).

(** What one status response means for the loop: [Some result] when the
    function returns from inside the loop, [None] when it falls through
    to [asyncio.sleep]. *)
Definition poll_response (remote_job_id : pyval) (response : Response)
  : M (option (gmap string pyval)) :=
  if status_code response =? 200 then
    data <- lift (json response) ;;
    status <- lift (py_get E data "status" (PyStr "pending")) ;;
    if py_eq_str status "completed" then
      video_url <- lift (py_get E data "video_url" PyNone) ;;
      ret (Some (list_to_map
                   [("job_id", remote_job_id);
                    ("status", PyStr "completed");
                    ("video_url", video_url)]))
    else if py_eq_str status "failed" then
      error <- lift (py_get E data "error" (PyStr "Unknown error")) ;;
      ret (Some (failed_result remote_job_id error))
    else ret None
  else ret None.

(** The [while] loop of [_poll_for_completion]; [fuel] bounds the number
    of times its body runs. *)
Fixpoint poll_loop (fuel : nat) (api_key api_url : string)
    (remote_job_id : pyval) (max_wait start_time : Z)
  : M (gmap string pyval) :=
  t <- datetime_now E ;;
  if timedelta_seconds (t - start_time) <? max_wait then
    match fuel with
    | O => lift NoFuel
    | S fuel' =>
        response <- http E (Get (PyStr (api_url +:+ "/jobs/" +:+
                                        py_format E remote_job_id))
                               (Some api_key)) ;;
        verdict <- poll_response remote_job_id response ;;
        match verdict with
        | Some result => ret result
        | None =>
            sleep 5 ;;
            poll_loop fuel' api_key api_url remote_job_id max_wait start_time
        end
    end
  else
    ret (failed_result remote_job_id
           (PyStr "Timeout waiting for video generation")).

Definition _poll_for_completion (fuel : nat) (api_key api_url : string)
    (remote_job_id : pyval) (max_wait : Z) : M (gmap string pyval) :=
  start_time <- datetime_now E ;;
  poll_loop fuel api_key api_url remote_job_id max_wait start_time.

(** Step 1 of [_real_generate]: the [for] loop over the photos. *)
Fixpoint upload_photos (api_key api_url : string) (photos : list string)
    (uploaded_photos : list pyval) : M (list pyval) :=
  match photos with
  | [] => ret uploaded_photos
  | photo_path :: rest =>
      open_rb E photo_path ;;
      response <- http E (PostFile (api_url +:+ "/upload") photo_path api_key) ;;
      uploaded_photos' <-
        (if status_code response =? 200 then
           data <- lift (json response) ;;
           file_id <- lift (py_getitem E data "file_id") ;;
           ret (uploaded_photos ++ [file_id])
         else ret uploaded_photos) ;;
      upload_photos api_key api_url rest uploaded_photos'
  end.

Definition generate_payload (prompt : string) (uploaded_photos : list pyval)
  : pyval :=
  PyDict [("prompt", PyStr prompt);
          ("reference_images", PyList uploaded_photos);
          ("options", PyDict [("duration", PyInt 5);
                              ("resolution", PyStr "1080p")])].

(** [result[key]] on a result dictionary. *)
Definition result_getitem (result : gmap string pyval) (key : string)
  : outcome pyval :=
  match result !! key with
  | Some v => Ret v
  | None => Raise (env_subscript_error E (PyDict (map_to_list result)) key)
  end.

(** The body of the [try] block of [_real_generate]. *)
Definition real_generate_body (fuel : nat) (api_key api_url : string)
    (job_id prompt : string) (photos : list string)
  : M (gmap string pyval) :=
  uploaded_photos <- upload_photos api_key api_url photos [] ;;
  if negb (truthy (PyList uploaded_photos)) then
    ret (failed_result (PyStr job_id) (PyStr "Failed to upload photos"))
  else
    job_response <- http E (PostJson (api_url +:+ "/generate")
                              (generate_payload prompt uploaded_photos)
                              api_key) ;;
    if negb (status_code job_response =? 200) then
      ret (failed_result (PyStr job_id) (PyStr (text job_response)))
    else
      data <- lift (json job_response) ;;
      remote_job_id <- lift (py_getitem E data "job_id") ;;
      result <- _poll_for_completion fuel api_key api_url remote_job_id 300 ;;
      status <- lift (result_getitem result "status") ;;
      if py_eq_str status "completed" then
        video_url <- lift (result_getitem result "video_url") ;;
        let videos_dir := video_storage_path config in
        mkdir E videos_dir ;;
        let video_filename := job_id +:+ ".mp4" in
        let video_path := env_path_join E videos_dir video_filename in
        video_response <- http E (Get video_url None) ;;
        write_bytes E video_path (content video_response) ;;
        ret (<["video_path" := PyStr video_path]> result)
      else ret result.

Definition _real_generate (fuel : nat) (job_id prompt : string)
    (photos : list string) : M (gmap string pyval) :=
  let api_key := seedance_api_key config in
  let api_url := seedance_api_url config in
  if negb (truthy (PyStr api_key)) then
    ret (failed_result (PyStr job_id)
           (PyStr "Seedance API key not configured"))
  else
    try_except
      (real_generate_body fuel api_key api_url job_id prompt photos)
      (λ e, ret (failed_result (PyStr job_id) (PyStr (exn_str e)))).

(** [user_id] only reaches the log, which is not modelled. *)
Definition generate_video (fuel : nat) (user_id : Z) (prompt : string)
    (photos : list string) (job_id : option string)
  : M (gmap string pyval) :=
  job_id <- match job_id with
            | None =>
                hex <- uuid4_hex E ;;
                ret ("vid_" +:+ String.substring 0 12 hex)
            | Some j => ret j
            end ;;
  if mock_mode config
  then _mock_generate job_id prompt photos
  else _real_generate fuel job_id prompt photos.

End Generator.
End VideoGenerator.

(** ** config.py *)

(** A Python [str] is read as the sequence of its characters, each a
    code point below 256; the functions below are [str.isspace],
    [str.lower], [str.strip], [str.startswith("#")] and
    [str.split("=", 1)] on such strings. *)
Definition isspace (c : Ascii.ascii) : bool :=
  let n := Ascii.N_of_ascii c in
  (((9 <=? n) && (n <=? 13)) || ((28 <=? n) && (n <=? 32))
   || (n =? 133) || (n =? 160))%N.

Definition lower_char (c : Ascii.ascii) : Ascii.ascii :=
  let n := Ascii.N_of_ascii c in
  if (((65 <=? n) && (n <=? 90))
      || ((192 <=? n) && (n <=? 222) && negb (n =? 215)))%N
  then Ascii.ascii_of_N (n + 32)
  else c.

Fixpoint str_lower (s : string) : string :=
  match s with
  | EmptyString => EmptyString
  | String c s' => String (lower_char c) (str_lower s')
  end.

Fixpoint lstrip (s : string) : string :=
  match s with
  | EmptyString => EmptyString
  | String c s' => if isspace c then lstrip s' else s
  end.

Fixpoint rstrip (s : string) : string :=
  match s with
  | EmptyString => EmptyString
  | String c s' =>
      match rstrip s' with
      | EmptyString => if isspace c then EmptyString else String c EmptyString
      | r => String c r
      end
  end.

Definition strip (s : string) : string := rstrip (lstrip s).

(** The characters ["#"] and ["="]. *)
Definition hash_char : Ascii.ascii := Ascii.ascii_of_N 35.
Definition equals_char : Ascii.ascii := Ascii.ascii_of_N 61.

Definition startswith_hash (s : string) : bool :=
  match s with
  | String c _ => Ascii.eqb c hash_char
  | EmptyString => false
  end.

(** [s.split("=", 1)] when ["=" in s]: the text before the first ["="]
    and the text after it; [None] when [s] holds no ["="]. *)
Fixpoint split_at_equals (s : string) : option (string * string) :=
  match s with
  | EmptyString => None
  | String c s' =>
      if Ascii.eqb c equals_char then Some (EmptyString, s')
      else match split_at_equals s' with
           | Some (key, value) => Some (String c key, value)
           | None => None
           end
  end.

Module config.

(** Library functions the module relies on: [int()], [str(Path(...))],
    and the exception raised, if any, when [os.environ] is given a new
    variable (an empty name or an embedded null character). *)
Record PyLib : Type := mk_pylib {
  py_int : string → outcome Z;
  py_path : string → string;
  putenv_error : string → string → option exn
}.

Record Config : Type := mk {
  telegram_bot_token : string;
  admin_user_id : Z;
  seedance_api_key : string;
  seedance_api_url : string;
  mock_mode : bool;
  video_storage_path : string;
  photo_storage_path : string;
  max_photos : Z;
  generation_timeout : Z;
  status_update_interval : Z
}.

(** The [.env] file: absent, or its lines as iteration yields them,
    followed by the exception, if any, that ends the reading. *)
Inductive env_file : Type :=
  | NoFile
  | File (lines : list string) (read_error : option exn).

(** The body of the [for] loop up to the [setdefault]: the variable and
    the value a line defines, if it defines one. *)
Definition parse_line (line : string) : option (string * string) :=
  let line := strip line in
  if negb (String.eqb line "") && negb (startswith_hash line) then
    match split_at_equals line with
    | Some (key, value) => Some (strip key, strip value)
    | None => None
    end
  else None.

(** [os.environ.setdefault(key, value)] *)
Definition setdefault (lib : PyLib) (key value : string)
    (environ : gmap string string) : outcome unit * gmap string string :=
  match environ !! key with
  | Some _ => (Ret tt, environ)
  | None =>
      match putenv_error lib key value with
      | Some e => (Raise e, environ)
      | None => (Ret tt, <[key := value]> environ)
      end
  end.

Fixpoint read_lines (lib : PyLib) (lines : list string)
    (environ : gmap string string) : outcome unit * gmap string string :=
  match lines with
  | [] => (Ret tt, environ)
  | line :: rest =>
      match parse_line line with
      | Some (key, value) =>
          match setdefault lib key value environ with
          | (Ret _, environ') => read_lines lib rest environ'
          | failure => failure
          end
      | None => read_lines lib rest environ
      end
  end.

Definition getenv (environ : gmap string string) (key default : string)
  : string :=
  match environ !! key with
  | Some value => value
  | None => default
  end.

Definition outcome_bind {A B} (o : outcome A) (k : A → outcome B) : outcome B :=
  match o with
  | Ret a => k a
  | Raise e => Raise e
  | NoFuel => NoFuel
  end.

(** The call [cls(...)] at the end of [load]; its arguments are
    evaluated in the order they are written. *)
Definition from_environ (lib : PyLib) (environ : gmap string string)
  : outcome Config :=
  let telegram_bot_token := getenv environ "TELEGRAM_BOT_TOKEN" "" in
  outcome_bind (py_int lib (getenv environ "ADMIN_USER_ID" "0"))
    (λ admin_user_id,
  let seedance_api_key := getenv environ "SEEDANCE_API_KEY" "" in
  let seedance_api_url :=
    getenv environ "SEEDANCE_API_URL" "https://api.seedance.example.com/v1" in
  let mock_mode :=
    String.eqb (str_lower (getenv environ "MOCK_MODE" "true")) "true" in
  let video_storage_path :=
    py_path lib (getenv environ "VIDEO_STORAGE_PATH" "./videos") in
  let photo_storage_path :=
    py_path lib (getenv environ "PHOTO_STORAGE_PATH" "./photos") in
  outcome_bind (py_int lib (getenv environ "MAX_PHOTOS" "4"))
    (λ max_photos,
  outcome_bind (py_int lib (getenv environ "GENERATION_TIMEOUT" "300"))
    (λ generation_timeout,
  outcome_bind (py_int lib (getenv environ "STATUS_UPDATE_INTERVAL" "30"))
    (λ status_update_interval,
  Ret {| telegram_bot_token := telegram_bot_token;
         admin_user_id := admin_user_id;
         seedance_api_key := seedance_api_key;
         seedance_api_url := seedance_api_url;
         mock_mode := mock_mode;
         video_storage_path := video_storage_path;
         photo_storage_path := photo_storage_path;
         max_photos := max_photos;
         generation_timeout := generation_timeout;
         status_update_interval := status_update_interval |})))).

(** [Config.load]: the result together with the process environment it
    leaves behind. *)
Definition load (lib : PyLib) (file : env_file) (environ : gmap string string)
  : outcome Config * gmap string string :=
  let '(read, environ') :=
    match file with
    | NoFile => (Ret tt, environ)
    | File lines read_error =>
        match read_lines lib lines environ with
        | (Ret _, environ') => (raise_if read_error, environ')
        | failure => failure
        end
    end in
  (outcome_bind read (λ _, from_environ lib environ'), environ').

Definition get_config := load.

End config.

(** [VideoGenerator.__init__]: what the generator keeps of the
    configuration it loads. *)
Definition generator_config (c : config.Config) : Config :=
  {| seedance_api_key := config.seedance_api_key c;
     seedance_api_url := config.seedance_api_url c;
     mock_mode := config.mock_mode c;
     video_storage_path := config.video_storage_path c |}.

(** Equality of characters and of strings up to the case of the letters
    [A]-[Z]. *)
Definition same_letter (c d : Ascii.ascii) : Prop := c = d ∨ lower_char c = d.

(** ** Vocabulary of the statements *)

(** The job identifier [generate_video] works with, and the world once it
    is chosen: a caller's identifier costs nothing, a fresh one draws a
    UUID. *)
Definition chosen_job_id (E : Env) (job_id : option string) (w : World)
  : string :=
  match job_id with
  | None => "vid_" +:+ String.substring 0 12 (env_uuid4_hex E (trace w))
  | Some j => j
  end.

Definition after_job_id (job_id : option string) (w : World) : World :=
  match job_id with
  | None => record_event EvUuid w
  | Some _ => w
  end.

(** Where the video of a job is stored. *)
Definition video_path_of (E : Env) (config : Config) (job_id : string)
  : string :=
  env_path_join E (video_storage_path config) (job_id +:+ ".mp4").

Definition upload_request (api_url api_key photo_path : string) : request :=
  PostFile (api_url +:+ "/upload") photo_path api_key.

Definition submit_request (api_url api_key prompt : string)
    (uploaded_photos : list pyval) : request :=
  PostJson (api_url +:+ "/generate")
    (VideoGenerator.generate_payload prompt uploaded_photos) api_key.

Definition status_request (E : Env) (api_url api_key : string)
    (remote_job_id : pyval) : request :=
  Get (PyStr (api_url +:+ "/jobs/" +:+ py_format E remote_job_id))
    (Some api_key).

Definition timeout_result (remote_job_id : pyval) : gmap string pyval :=
  VideoGenerator.failed_result remote_job_id
    (PyStr "Timeout waiting for video generation").

(** A status response after which the loop sleeps and goes round again. *)
Definition reads_as_pending (E : Env) (remote_job_id : pyval)
    (response : Response) : Prop :=
  ∀ w, VideoGenerator.poll_response E remote_job_id response w = (Ret None, w).

(** One turn of the polling loop that falls through to the sleep: the
    deadline check, the status request, the sleep. *)
Definition poll_cycle (get : request) (w : World) : World :=
  record_event (EvSleep 5) (record_event (EvHttp get) (record_event EvNow w)).

(** Microseconds read on the clock at [w] since [start_time]. *)
Definition elapsed (E : Env) (start_time : Z) (w : World) : Z :=
  env_now E (trace w) - start_time.

(** A wall clock that does not go backwards while it is read, and on
    which a turn of the polling loop takes at least the five seconds of
    its sleep and at most [c] microseconds. *)
Definition steady_clock (E : Env) (get : request) (c : Z) : Prop :=
  ∀ tr,
    0 ≤ env_now E (EvNow :: tr) - env_now E tr ≤ c
    ∧ 5000000 ≤ env_now E (EvSleep 5 :: EvHttp get :: EvNow :: tr)
                 - env_now E tr ≤ c.

(** A session driven by a list of calls, oldest first. *)
Definition run_ops (ops : list VideoSession.op) (s : VideoSession.t)
  : VideoSession.t :=
  foldl (λ s o, VideoSession.step o s) s ops.

(** The two states from which [add_photo] never appends. *)
Definition prompt_given (s : VideoSession.t) : Prop :=
  VideoSession.state s = VideoSession.waiting_for_prompt
  ∨ VideoSession.state s = VideoSession.processing.

(** The shape of a result dictionary: a job id, and either a completed
    status with a video path and no error, or a failed status with an
    error and no video path. *)
Definition well_formed_result (result : gmap string pyval) : Prop :=
  is_Some (result !! "job_id")
  ∧ ((result !! "status" = Some (PyStr "completed")
      ∧ is_Some (result !! "video_path")
      ∧ result !! "error" = None)
     ∨ (result !! "status" = Some (PyStr "failed")
        ∧ is_Some (result !! "error")
        ∧ result !! "video_path" = None)).

(** The requests a generator configured with [config] may issue: the
    three endpoints under the API URL, each with the API key as bearer,
    and downloads without credentials. *)
Definition allowed_request (config : Config) (r : request) : Prop :=
  match r with
  | PostFile url _ bearer =>
      url = seedance_api_url config +:+ "/upload"
      ∧ bearer = seedance_api_key config
  | PostJson url _ bearer =>
      url = seedance_api_url config +:+ "/generate"
      ∧ bearer = seedance_api_key config
  | Get url (Some bearer) =>
      bearer = seedance_api_key config
      ∧ ∃ remote : string,
          url = PyStr (seedance_api_url config +:+ "/jobs/" +:+ remote)
  | Get _ None => True
  end.

(** A computation that, however it ends, only adds requests satisfying
    [P] to those already issued. *)
Definition emits {A} (P : request → Prop) (c : M A) : Prop :=
  ∀ w o w',
    c w = (o, w') →
    ∃ new, network_calls (trace w') = new ++ network_calls (trace w)
           ∧ Forall P new.

(** The file id an upload answered with [response] contributes, when
    [file_id] is what its body holds. *)
Definition accepted_upload (response : Response) (file_id : pyval)
  : option pyval :=
  if status_code response =? 200 then Some file_id else None.

(** What [_poll_for_completion] returns: a completed verdict with the
    video URL, or a failure with its error; never a video path. *)
Definition poll_result_shape (result : gmap string pyval) : Prop :=
  is_Some (result !! "job_id")
  ∧ result !! "video_path" = None
  ∧ ((result !! "status" = Some (PyStr "completed")
      ∧ is_Some (result !! "video_url")
      ∧ result !! "error" = None)
     ∨ (result !! "status" = Some (PyStr "failed")
        ∧ is_Some (result !! "error"))).



(** ** Worlds used in the examples *)

Module Scenario.

(** A wall clock driven by the run: sleeping takes the time asked for,
    a request takes [latency] microseconds, nothing else takes time. *)
Fixpoint clock (latency : request → Z) (tr : list event) : Z :=
  match tr with
  | [] => 0
  | EvSleep seconds :: tr' => clock latency tr' + Z.max 0 seconds * 1000000
  | EvHttp r :: tr' => clock latency tr' + Z.max 0 (latency r)
  | _ :: tr' => clock latency tr'
  end.

(** A remote service that answers each kind of request in one fixed
    way, and a disk whose faults depend on the operation only. *)
Record Service : Type := mk_service {
  on_upload : outcome Response;
  on_submit : outcome Response;
  on_status : outcome Response;
  on_download : outcome Response;
  latency : request → Z;
  fs_fault : event → option exn
}.

Definition service_env (sv : Service) : Env :=
  {| env_uuid4_hex := λ _, "0123456789abcdef0123456789abcdef";
     env_now := clock (latency sv);
     env_open := λ _ _, None;
     env_http := λ _ r,
       match r with
       | PostFile _ _ _ => on_upload sv
       | PostJson _ _ _ => on_submit sv
       | Get _ (Some _) => on_status sv
       | Get _ None => on_download sv
       end;
     env_fs := λ _ e, fs_fault sv e;
     env_path_join := λ dir name, dir +:+ "/" +:+ name;
     env_subscript_error := λ _ key, mk_exn true ("'" +:+ key +:+ "'");
     env_attribute_error := λ _, mk_exn true "object has no attribute 'get'";
     env_str := λ _, "None" |}.

Definition json_response (v : pyval) : Response :=
  {| status_code := 200; text := ""; json := Ret v; content := "" |}.

Definition error_response (code : Z) (body : string) : Response :=
  {| status_code := code; text := body;
     json := Raise (mk_exn true "Expecting value: line 1 column 1 (char 0)");
     content := body |}.

Definition video_response : Response :=
  {| status_code := 200; text := ""; 
     json := Raise (mk_exn true "Expecting value: line 1 column 1 (char 0)");
     content := "MP4DATA" |}.

Definition connect_error : exn := mk_exn true "All connection attempts failed".
Definition file_not_found : exn :=
  mk_exn true "[Errno 2] No such file or directory: 'media/videos'".
Definition disk_full : exn :=
  mk_exn true "[Errno 28] No space left on device".

(** Every step succeeds and the job is reported completed at once. *)
Definition healthy : Service :=
  {| on_upload := Ret (json_response (PyDict [("file_id", PyStr "file-1")]));
     on_submit := Ret (json_response (PyDict [("job_id", PyStr "remote-1")]));
     on_status :=
       Ret (json_response
              (PyDict [("status", PyStr "completed");
                       ("video_url", PyStr "https://cdn.example.com/v.mp4")]));
     on_download := Ret video_response;
     latency := λ _, 0;
     fs_fault := λ _, None |}.

(** The job stays pending for ever. *)
Definition never_done : Service :=
  {| on_upload := on_upload healthy;
     on_submit := on_submit healthy;
     on_status := Ret (json_response (PyDict [("status", PyStr "pending")]));
     on_download := on_download healthy;
     latency := λ _, 0;
     fs_fault := λ _, None |}.

(** The status endpoint cannot be reached. *)
Definition refusing_status : Service :=
  {| on_upload := on_upload healthy;
     on_submit := on_submit healthy;
     on_status := Raise connect_error;
     on_download := on_download healthy;
     latency := λ _, 0;
     fs_fault := λ _, None |}.

(** The status endpoint answers 503. *)
Definition unavailable_status : Service :=
  {| on_upload := on_upload healthy;
     on_submit := on_submit healthy;
     on_status := Ret (error_response 503 "Service Unavailable");
     on_download := on_download healthy;
     latency := λ _, 0;
     fs_fault := λ _, None |}.

(** Every upload is answered 500. *)
Definition rejecting_upload : Service :=
  {| on_upload := Ret (error_response 500 "Internal Server Error");
     on_submit := on_submit healthy;
     on_status := on_status healthy;
     on_download := on_download healthy;
     latency := λ _, 0;
     fs_fault := λ _, None |}.

(** The generation request is refused. *)
Definition rejecting_submit : Service :=
  {| on_upload := on_upload healthy;
     on_submit := Ret (error_response 422 "prompt rejected by moderation");
     on_status := on_status healthy;
     on_download := on_download healthy;
     latency := λ _, 0;
     fs_fault := λ _, None |}.

(** The storage directory cannot be created. *)
Definition missing_parent : Service :=
  {| on_upload := on_upload healthy;
     on_submit := on_submit healthy;
     on_status := on_status healthy;
     on_download := on_download healthy;
     latency := λ _, 0;
     fs_fault := λ e, match e with
                      | EvMkdir _ => Some file_not_found
                      | _ => None
                      end |}.

(** The finished video cannot be written. *)
Definition full_disk : Service :=
  {| on_upload := on_upload healthy;
     on_submit := on_submit healthy;
     on_status := on_status healthy;
     on_download := on_download healthy;
     latency := λ _, 0;
     fs_fault := λ e, match e with
                      | EvWriteBytes _ _ => Some disk_full
                      | _ => None
                      end |}.

(** A service whose job is reported pending by the first [n] status
    requests and completed by the later ones: the answer depends on the
    requests seen so far. *)
Definition is_status_request (r : request) : bool :=
  match r with
  | Get _ (Some _) => true
  | _ => false
  end.

Definition is_sleep (e : event) : bool :=
  match e with
  | EvSleep _ => true
  | _ => false
  end.

Definition completes_after (n : nat) : Env :=
  {| env_uuid4_hex := env_uuid4_hex (service_env healthy);
     env_now := env_now (service_env healthy);
     env_open := env_open (service_env healthy);
     env_http := λ tr r,
       if is_status_request r then
         if bool_decide
              (length (filter (λ q, is_status_request q = true)
                         (network_calls tr)) < n)%nat
         then on_status never_done
         else on_status healthy
       else env_http (service_env healthy) tr r;
     env_fs := env_fs (service_env healthy);
     env_path_join := env_path_join (service_env healthy);
     env_subscript_error := env_subscript_error (service_env healthy);
     env_attribute_error := env_attribute_error (service_env healthy);
     env_str := env_str (service_env healthy) |}.

(** What the picky service answers to the upload of a photo: 500 for
    ["bad.jpg"], and otherwise 200 with a file id made from the path. *)
Definition picky_answer (photo_path : string) : Response :=
  if String.eqb photo_path "bad.jpg"
  then error_response 500 "Internal Server Error"
  else json_response (PyDict [("file_id", PyStr ("file-" +:+ photo_path))]).

Definition picky_upload : Env :=
  {| env_uuid4_hex := env_uuid4_hex (service_env healthy);
     env_now := env_now (service_env healthy);
     env_open := env_open (service_env healthy);
     env_http := λ tr r,
       match r with
       | PostFile _ photo_path _ => Ret (picky_answer photo_path)
       | _ => env_http (service_env healthy) tr r
       end;
     env_fs := env_fs (service_env healthy);
     env_path_join := env_path_join (service_env healthy);
     env_subscript_error := env_subscript_error (service_env healthy);
     env_attribute_error := env_attribute_error (service_env healthy);
     env_str := env_str (service_env healthy) |}.

Definition permission_denied : exn :=
  mk_exn true "[Errno 13] Permission denied: 'media/videos/vid_local.mp4'".

(** [asyncio.CancelledError]: it derives from [BaseException] only. *)
Definition cancelled : exn := mk_exn false "".

(** The storage directory exists but no file can be created in it. *)
Definition read_only_storage : Service :=
  {| on_upload := on_upload healthy;
     on_submit := on_submit healthy;
     on_status := on_status healthy;
     on_download := on_download healthy;
     latency := λ _, 0;
     fs_fault := λ e, match e with
                      | EvTouch _ => Some permission_denied
                      | _ => None
                      end |}.

(** Every status request is answered 200 with the JSON body [[]]. *)
Definition list_body_status : Service :=
  {| on_upload := on_upload healthy;
     on_submit := on_submit healthy;
     on_status := Ret (json_response (PyList []));
     on_download := on_download healthy;
     latency := λ _, 0;
     fs_fault := λ _, None |}.

(** The task is cancelled while a status request is in flight. *)
Definition cancelled_status : Service :=
  {| on_upload := on_upload healthy;
     on_submit := on_submit healthy;
     on_status := Raise cancelled;
     on_download := on_download healthy;
     latency := λ _, 0;
     fs_fault := λ _, None |}.

(** The job stays pending and every status request takes [seconds]
    seconds to be answered. *)
Definition slow_status (seconds : Z) : Service :=
  {| on_upload := on_upload healthy;
     on_submit := on_submit healthy;
     on_status := on_status never_done;
     on_download := on_download healthy;
     latency := λ r, if is_status_request r then seconds * 1000000 else 0;
     fs_fault := λ _, None |}.

(** The job stays pending; the wall clock reads one second at the start
    of the run and is then set back to zero. *)
Definition clock_set_back : Env :=
  {| env_uuid4_hex := env_uuid4_hex (service_env never_done);
     env_now := λ tr, match tr with [] => 1000000 | _ => 0 end;
     env_open := env_open (service_env never_done);
     env_http := env_http (service_env never_done);
     env_fs := env_fs (service_env never_done);
     env_path_join := env_path_join (service_env never_done);
     env_subscript_error := env_subscript_error (service_env never_done);
     env_attribute_error := env_attribute_error (service_env never_done);
     env_str := env_str (service_env never_done) |}.

(** The job stays pending and the wall clock stands still. *)
Definition stopped_clock : Env :=
  {| env_uuid4_hex := env_uuid4_hex (service_env never_done);
     env_now := λ _, 0;
     env_open := env_open (service_env never_done);
     env_http := env_http (service_env never_done);
     env_fs := env_fs (service_env never_done);
     env_path_join := env_path_join (service_env never_done);
     env_subscript_error := env_subscript_error (service_env never_done);
     env_attribute_error := env_attribute_error (service_env never_done);
     env_str := env_str (service_env never_done) |}.


(** Stand-ins for the library functions of [config.py]: [int()] on
    strings of decimal digits, paths kept as written, and an
    environment that accepts every variable. *)
Fixpoint digits_value (acc : Z) (s : string) : option Z :=
  match s with
  | EmptyString => Some acc
  | String c s' =>
      match Ascii.is_nat c with
      | Some d => digits_value (10 * acc + Z.of_nat d) s'
      | None => None
      end
  end.

Definition value_error : exn :=
  mk_exn true "invalid literal for int() with base 10".

Definition sample_lib : config.PyLib :=
  {| config.py_int := λ s,
       match s with
       | EmptyString => Raise value_error
       | _ => match digits_value 0 s with
              | Some z => Ret z
              | None => Raise value_error
              end
       end;
     config.py_path := λ s, s;
     config.putenv_error := λ _ _, None |}.

Definition newline : string := String (Ascii.ascii_of_N 10) EmptyString.

Definition sample_env_file : list string :=
  ["# video generation" +:+ newline;
   newline;
   "SEEDANCE_API_KEY = sk-first" +:+ newline;
   "SEEDANCE_API_KEY=sk-second" +:+ newline;
   "MOCK_MODE=false" +:+ newline;
   "not a definition" +:+ newline].

Definition mock_config : Config :=
  {| seedance_api_key := "";
     seedance_api_url := "https://api.seedance.example.com/v1";
     mock_mode := true;
     video_storage_path := "media/videos" |}.

Definition real_config : Config :=
  {| seedance_api_key := "sk-test";
     seedance_api_url := "https://api.seedance.example.com/v1";
     mock_mode := false;
     video_storage_path := "media/videos" |}.

Definition real_config_without_key : Config :=
  {| seedance_api_key := "";
     seedance_api_url := "https://api.seedance.example.com/v1";
     mock_mode := false;
     video_storage_path := "media/videos" |}.

Definition fresh_world : World := {| trace := []; files := ∅ |}.

End Scenario.

(** ** Properties of VideoSession *)

Section SessionInvariants.
Import VideoSession.

Lemma add_photo_state (p : string) (s : t) :
  state (snd (add_photo p s)) =
    if decide (state s = idle) then collecting_photos else state s.
Proof.
  unfold add_photo. destruct s as [st ph pr]; simpl.
  destruct st; simpl; try reflexivity;
    destruct (Z.of_nat (length ph) <? 4); reflexivity.
Qed.

Lemma add_photo_prompt (p : string) (s : t) :
  prompt (snd (add_photo p s)) = prompt s.
Proof.
  unfold add_photo. destruct s as [st ph pr]; simpl.
  destruct st; simpl; try reflexivity;
    destruct (Z.of_nat (length ph) <? 4); reflexivity.
Qed.

Lemma add_photo_length (p : string) (s : t) :
  (length (photos s) ≤ 4 → length (photos (snd (add_photo p s))) ≤ 4)%nat.
Proof.
  unfold add_photo. destruct s as [st ph pr]; simpl. intros Hlen.
  destruct st; simpl; try assumption;
    destruct (Z.ltb_spec (Z.of_nat (length ph)) 4); simpl;
    rewrite ?length_app; simpl; lia.
Qed.

(** What holds of every session built through the methods: the cap on
    the photos, no photos while idle, and a prompt that came from a
    [set_prompt] call while waiting for the prompt. *)
Lemma reachable_by_inv (P : string → Prop) (s : t) :
  reachable_by P s →
  (length (photos s) ≤ 4)%nat
  ∧ (state s = idle → photos s = [])
  ∧ (state s = waiting_for_prompt → P (prompt s)).
Proof.
  induction 1 as [|s o Hs (Hlen & Hidle & Hwait) Ho].
  - simpl. split; [lia|]. split; done.
  - destruct o as [p|text| |]; simpl in *.
    + split; [apply add_photo_length; exact Hlen|].
      rewrite add_photo_state, add_photo_prompt.
      split; destruct (decide (state s = idle)); try done.
    + split; [exact Hlen|]. split; done.
    + split; [exact Hlen|]. split; done.
    + split; [lia|]. split; done.
Qed.

(** C2: the photos of a session built through the methods never exceed
    four, and [add_photo] on such a session that holds four photos, or
    whose state is neither idle nor collecting photos, returns [False]
    and leaves state, photos and prompt as they were. *)
Theorem add_photo_capped (s : t) :
  reachable s →
  (length (photos s) ≤ 4)%nat
  ∧ ∀ p : string,
      (length (photos s) = 4%nat
       ∨ (state s ≠ idle ∧ state s ≠ collecting_photos)) →
      add_photo p s = (false, s).
Proof.
  intros Hs. destruct (reachable_by_inv _ _ Hs) as (Hlen & Hidle & _).
  split; [exact Hlen|]. intros p Hcase.
  unfold add_photo. destruct s as [st ph pr]; simpl in *.
  destruct Hcase as [Hfour | [Hni Hnc]].
  - destruct st; simpl; try reflexivity.
    + specialize (Hidle eq_refl). subst ph. discriminate Hfour.
    + rewrite Hfour. reflexivity.
  - destruct st; simpl; try reflexivity; congruence.
Qed.

Lemma add_photo_capped_witness :
  let s := step (SetPrompt "dance video")
             (step (AddPhoto "p1.jpg") create_video_session) in
  reachable s ∧ (length (photos s) ≤ 4)%nat
  ∧ add_photo "p2.jpg" s = (false, s).
Proof.
  assert (Hs : reachable (step (SetPrompt "dance video")
                (step (AddPhoto "p1.jpg") create_video_session))).
  { apply reach_step; [apply reach_step; [apply reach_init|]|]; exact I. }
  split; [exact Hs|].
  destruct (add_photo_capped _ Hs) as [Hlen Hno].
  split; [exact Hlen|].
  apply Hno. right. split; discriminate.
Defined.

(** C3: [is_ready()] is truthy exactly when at least one photo is held,
    the prompt is not the empty string and the state is waiting for the
    prompt; this holds of every session, reachable or not. *)
Theorem is_ready_iff (s : t) :
  truthy (is_ready s) = true ↔
  (1 ≤ length (photos s))%nat ∧ prompt s ≠ "" ∧ state s = waiting_for_prompt.
Proof.
  unfold is_ready, py_and. destruct s as [st ph pr]; simpl.
  destruct (Z.leb_spec 1 (Z.of_nat (length ph))) as [Hph|Hph]; simpl.
  - destruct (String.eqb_spec pr "") as [Hpr|Hpr]; simpl.
    + rewrite Hpr. simpl. split; [discriminate|]. intros (_ & Hne & _). done.
    + destruct (String.eqb_spec pr "") as [|_]; [done|]. simpl.
      rewrite bool_decide_eq_true. split.
      * intros ->. repeat split; [lia | done].
      * intros (_ & _ & Hst). exact Hst.
  - split; [discriminate|]. intros (Hlen & _). lia.
Qed.

(** C4, as stated, fails: [set_prompt] has no guard, so it moves a
    session that is processing back to waiting for the prompt. *)
Lemma processing_not_frozen :
  ¬ (∀ s : t, reachable s →
       (state s = waiting_for_prompt → prompt s ≠ "")
       ∧ (state s = processing → ∀ o : op, o ≠ Reset → step o s = s)).
Proof.
  intros Hall.
  pose (s := step StartProcessing
               (step (SetPrompt "dance video")
                  (step (AddPhoto "p1.jpg") create_video_session))).
  assert (Hs : reachable s).
  { repeat (apply reach_step; [|exact I]). apply reach_init. }
  destruct (Hall s Hs) as [_ Hfrozen].
  specialize (Hfrozen eq_refl (SetPrompt "walk") ltac:(discriminate)).
  discriminate Hfrozen.
Qed.

(** C4, amended: on every session built through the methods with prompt
    texts satisfying [P], the prompt satisfies [P] while the state is
    waiting for the prompt; [add_photo] and [start_processing] leave a
    processing session as it is; [set_prompt] stores its text and moves
    the session to waiting for the prompt from every state, processing
    included, keeping the photos. *)
Theorem processing_guarded_by_add_photo_only (P : string → Prop) (s : t) :
  reachable_by P s →
  (state s = waiting_for_prompt → P (prompt s))
  ∧ (state s = processing →
     (∀ p : string, add_photo p s = (false, s)) ∧ start_processing s = s)
  ∧ (∀ text : string,
       state (set_prompt text s) = waiting_for_prompt
       ∧ prompt (set_prompt text s) = text
       ∧ photos (set_prompt text s) = photos s).
Proof.
  intros Hs. destruct (reachable_by_inv _ _ Hs) as (_ & _ & Hwait).
  split; [exact Hwait|]. split.
  - intros Hproc. destruct s as [st ph pr]; simpl in *. subst st.
    split; [intros p|]; reflexivity.
  - intros text. repeat split.
Qed.

Lemma processing_guarded_by_add_photo_only_witness :
  let s := step StartProcessing
             (step (SetPrompt "dance video")
                (step (AddPhoto "p1.jpg") create_video_session)) in
  reachable_by (λ text, text ≠ "") s
  ∧ add_photo "p2.jpg" s = (false, s)
  ∧ state (set_prompt "walk" s) = waiting_for_prompt.
Proof.
  assert (Hs : reachable_by (λ text, text ≠ "")
                 (step StartProcessing
                    (step (SetPrompt "dance video")
                       (step (AddPhoto "p1.jpg") create_video_session)))).
  { apply reach_step; [apply reach_step; [apply reach_step|]|]; simpl;
      [apply reach_init | exact I | discriminate | exact I]. }
  split; [exact Hs|].
  destruct (processing_guarded_by_add_photo_only _ _ Hs)
    as (_ & Hproc & Hset).
  split.
  - apply (proj1 (Hproc eq_refl)).
  - apply (proj1 (Hset "walk")).
Defined.

End SessionInvariants.

(** ** Properties of VideoGenerator *)

Import VideoGenerator.

Section GeneratorLemmas.
Context (E : Env) (config : Config).

Lemma bind_Ret {A B} (c : M A) (k : A → M B) w b w' :
  bind c k w = (Ret b, w') →
  ∃ a w1, c w = (Ret a, w1) ∧ k a w1 = (Ret b, w').
Proof.
  unfold bind. destruct (c w) as [[a|e|] w1]; intros H;
    [eauto | discriminate | discriminate].
Qed.

Lemma generate_video_dispatch fuel user_id prompt photos job_id w :
  generate_video E config fuel user_id prompt photos job_id w =
    (if mock_mode config
     then _mock_generate E config (chosen_job_id E job_id w) prompt photos
     else _real_generate E config fuel (chosen_job_id E job_id w) prompt photos)
      (after_job_id job_id w).
Proof. destruct job_id; reflexivity. Qed.

Lemma network_calls_after_job_id job_id w :
  network_calls (trace (after_job_id job_id w)) = network_calls (trace w).
Proof. destruct job_id; reflexivity. Qed.

Lemma failed_result_job_id job_id error :
  failed_result job_id error !! "job_id" = Some job_id.
Proof. reflexivity. Qed.

End GeneratorLemmas.

Section MockMode.
Context (E : Env) (config : Config).

(** C5, amended: in mock mode, whatever the prompt and the photos, when the
    storage directory can be created and the placeholder touched,
    [generate_video] issues no request and returns a completed result
    whose [video_path] is the storage directory joined with
    [<job_id>.mp4]; that file exists when the call returns, empty
    unless it was there before. *)
Theorem mock_generate_completed fuel user_id prompt photos job_id w :
  mock_mode config = true →
  env_fs E (EvSleep 2 :: trace (after_job_id job_id w))
    (EvMkdir (video_storage_path config)) = None →
  env_fs E (EvMkdir (video_storage_path config) :: EvSleep 2
            :: trace (after_job_id job_id w))
    (EvTouch (video_path_of E config (chosen_job_id E job_id w))) = None →
  ∃ result w',
    generate_video E config fuel user_id prompt photos job_id w
      = (Ret result, w')
    ∧ result !! "status" = Some (PyStr "completed")
    ∧ result !! "video_path"
        = Some (PyStr (video_path_of E config (chosen_job_id E job_id w)))
    ∧ result !! "job_id" = Some (PyStr (chosen_job_id E job_id w))
    ∧ files w' !! video_path_of E config (chosen_job_id E job_id w)
        = Some (default ""
                  (files w !! video_path_of E config (chosen_job_id E job_id w)))
    ∧ network_calls (trace w') = network_calls (trace w).
Proof.
  intros Hmock Hmkdir Htouch.
  rewrite generate_video_dispatch, Hmock.
  unfold _mock_generate, bind, sleep, mkdir, touch, ret. simpl.
  rewrite Hmkdir. simpl. fold (video_path_of E config (chosen_job_id E job_id w)).
  rewrite Htouch.
  eexists _, _. split; [reflexivity|].
  repeat split.
  - simpl. replace (files (after_job_id job_id w)) with (files w)
      by (destruct job_id; reflexivity).
    destruct (files w !! video_path_of E config (chosen_job_id E job_id w))
      as [old|] eqn:Hold; simpl.
    + exact Hold.
    + apply lookup_insert_eq.
  - simpl. apply network_calls_after_job_id.
Qed.

End MockMode.

(** C5, as stated, fails: with one photo and a prompt, in mock mode, the
    placeholder file cannot be created; the error raised by [touch]
    leaves [generate_video], which returns no result and leaves no file. *)
Lemma mock_generate_touch_fails :
  generate_video (Scenario.service_env Scenario.read_only_storage)
    Scenario.mock_config 0 42 "dance video" ["p1.jpg"] (Some "vid_local")
    Scenario.fresh_world
  = (Raise Scenario.permission_denied,
     {| trace := [EvTouch "media/videos/vid_local.mp4";
                  EvMkdir "media/videos"; EvSleep 2];
        files := ∅ |}).
Proof. reflexivity. Qed.

Lemma mock_generate_completed_witness :
  ∃ result w',
    generate_video (Scenario.service_env Scenario.healthy) Scenario.mock_config
      0 42 "dance video" ["p1.jpg"] None Scenario.fresh_world = (Ret result, w')
    ∧ result !! "status" = Some (PyStr "completed")
    ∧ result !! "video_path" = Some (PyStr "media/videos/vid_0123456789ab.mp4")
    ∧ files w' !! "media/videos/vid_0123456789ab.mp4" = Some "".
Proof.
  destruct (mock_generate_completed (Scenario.service_env Scenario.healthy)
              Scenario.mock_config 0 42 "dance video" ["p1.jpg"] None
              Scenario.fresh_world eq_refl eq_refl eq_refl)
    as (result & w' & Hrun & Hstatus & Hpath & _ & Hfile & _).
  exists result, w'. repeat split; assumption.
Defined.

Section RealMode.
Context (E : Env) (config : Config).

(** C9: in real mode with an empty API key, [generate_video] returns
    the failed result "Seedance API key not configured" and issues no
    request. *)
Theorem real_generate_without_key fuel user_id prompt photos job_id w :
  mock_mode config = false →
  seedance_api_key config = "" →
  generate_video E config fuel user_id prompt photos job_id w
    = (Ret (failed_result (PyStr (chosen_job_id E job_id w))
              (PyStr "Seedance API key not configured")),
       after_job_id job_id w)
  ∧ network_calls (trace (after_job_id job_id w)) = network_calls (trace w).
Proof.
  intros Hmock Hkey. split; [|apply network_calls_after_job_id].
  rewrite generate_video_dispatch, Hmock.
  unfold _real_generate. rewrite Hkey. reflexivity.
Qed.

Lemma truthy_key (api_key : string) :
  api_key ≠ "" → negb (truthy (PyStr api_key)) = false.
Proof.
  intros Hne. simpl. destruct (String.eqb_spec api_key ""); [done|reflexivity].
Qed.

(** The upload loop that ends normally has posted every photo, in
    order, and nothing else. *)
Lemma upload_photos_calls api_key api_url photos uploaded w result w' :
  upload_photos E api_key api_url photos uploaded w = (Ret result, w') →
  network_calls (trace w')
    = reverse (upload_request api_url api_key <$> photos)
        ++ network_calls (trace w).
Proof.
  revert uploaded w. induction photos as [|photo_path rest IH];
    intros uploaded w Hrun; simpl in Hrun.
  - injection Hrun as _ <-. reflexivity.
  - apply bind_Ret in Hrun as ([] & w1 & Hopen & Hrun).
    apply bind_Ret in Hrun as (response & w2 & Hpost & Hrun).
    apply bind_Ret in Hrun as (uploaded' & w3 & Hadd & Hrun).
    apply IH in Hrun. rewrite Hrun. clear Hrun IH.
    assert (trace w3 = trace w2) as ->.
    { destruct (status_code response =? 200); [|by injection Hadd as _ <-].
      apply bind_Ret in Hadd as (data & w4 & Hjson & Hadd).
      apply bind_Ret in Hadd as (file_id & w5 & Hid & Hadd).
      unfold lift in *. injection Hjson as _ <-. injection Hid as _ <-.
      by injection Hadd as _ <-. }
    unfold http in Hpost. injection Hpost as _ <-.
    unfold open_rb in Hopen. injection Hopen as _ <-.
    simpl. rewrite reverse_cons, <- app_assoc. reflexivity.
Qed.

(** C6: in real mode with a key, when the upload loop ends with no file
    id (the empty list of photos included), [generate_video] returns
    the failed result "Failed to upload photos"; the requests issued
    are the uploads of the photos and nothing else, so no job is
    submitted. *)
Theorem no_upload_no_submit fuel user_id prompt photos job_id w w1 :
  mock_mode config = false →
  seedance_api_key config ≠ "" →
  upload_photos E (seedance_api_key config) (seedance_api_url config)
    photos [] (after_job_id job_id w) = (Ret [], w1) →
  generate_video E config fuel user_id prompt photos job_id w
    = (Ret (failed_result (PyStr (chosen_job_id E job_id w))
              (PyStr "Failed to upload photos")), w1)
  ∧ network_calls (trace w1)
      = reverse (upload_request (seedance_api_url config)
                   (seedance_api_key config) <$> photos)
          ++ network_calls (trace w).
Proof.
  intros Hmock Hkey Hupload. split.
  - rewrite generate_video_dispatch, Hmock.
    unfold _real_generate. rewrite (truthy_key _ Hkey).
    unfold try_except, real_generate_body, bind. rewrite Hupload.
    reflexivity.
  - rewrite (upload_photos_calls _ _ _ _ _ _ _ Hupload).
    by rewrite network_calls_after_job_id.
Qed.

(** The handler of the real path: in real mode [generate_video] never
    lets an exception deriving from [Exception] out, and an exception of
    that kind raised in the [try] block becomes the failed result that
    carries the local job id and the exception's message. *)
Theorem real_generate_catches fuel user_id prompt photos job_id w :
  mock_mode config = false →
  (∀ e w',
     generate_video E config fuel user_id prompt photos job_id w
       = (Raise e, w') →
     exn_is_Exception e = false)
  ∧ (∀ e w',
       seedance_api_key config ≠ "" →
       real_generate_body E config fuel (seedance_api_key config)
         (seedance_api_url config) (chosen_job_id E job_id w) prompt photos
         (after_job_id job_id w) = (Raise e, w') →
       exn_is_Exception e = true →
       generate_video E config fuel user_id prompt photos job_id w
         = (Ret (failed_result (PyStr (chosen_job_id E job_id w))
                   (PyStr (exn_str e))), w')).
Proof.
  intros Hmock. rewrite generate_video_dispatch, Hmock.
  unfold _real_generate. split.
  - intros e w'.
    destruct (negb (truthy (PyStr (seedance_api_key config))));
      [discriminate|].
    unfold try_except.
    destruct (real_generate_body _ _ _ _ _ _ _ _ _) as [[r|e0|] w0];
      [discriminate| |discriminate].
    destruct (exn_is_Exception e0) eqn:Hkind; [discriminate|].
    intros [= <- _]. exact Hkind.
  - intros e w' Hkey Hbody Hkind.
    rewrite (truthy_key _ Hkey). unfold try_except.
    rewrite Hbody, Hkind. reflexivity.
Qed.

End RealMode.

Lemma real_generate_without_key_witness :
  generate_video (Scenario.service_env Scenario.healthy)
    Scenario.real_config_without_key 10 42 "dance video" ["p1.jpg"; "p2.jpg"]
    (Some "vid_local") Scenario.fresh_world
  = (Ret (failed_result (PyStr "vid_local")
            (PyStr "Seedance API key not configured")),
     Scenario.fresh_world).
Proof.
  apply (real_generate_without_key (Scenario.service_env Scenario.healthy)
           Scenario.real_config_without_key 10 42 "dance video"
           ["p1.jpg"; "p2.jpg"] (Some "vid_local") Scenario.fresh_world
           eq_refl eq_refl).
Defined.

Lemma no_upload_no_submit_witness :
  ∃ w1,
    generate_video (Scenario.service_env Scenario.rejecting_upload)
      Scenario.real_config 10 42 "dance video" ["p1.jpg"; "p2.jpg"]
      (Some "vid_local") Scenario.fresh_world
    = (Ret (failed_result (PyStr "vid_local")
              (PyStr "Failed to upload photos")), w1)
    ∧ network_calls (trace w1)
      = [upload_request "https://api.seedance.example.com/v1" "sk-test" "p2.jpg";
         upload_request "https://api.seedance.example.com/v1" "sk-test" "p1.jpg"].
Proof.
  eexists.
  apply (no_upload_no_submit (Scenario.service_env Scenario.rejecting_upload)
           Scenario.real_config 10 42 "dance video" ["p1.jpg"; "p2.jpg"]
           (Some "vid_local") Scenario.fresh_world).
  - reflexivity.
  - discriminate.
  - vm_compute. reflexivity.
Defined.

(** C1 fails on the mock path.  The storage directory cannot be created:
    in mock mode the error raised by [mkdir] leaves [generate_video],
    although the result is documented to be a dictionary with an error;
    in real mode, on the same disk, the handler turns the same error of
    the same [mkdir] into a failed result. *)
Lemma mock_generate_propagates :
  generate_video (Scenario.service_env Scenario.missing_parent)
    Scenario.mock_config 0 42 "dance video" ["p1.jpg"] (Some "vid_local")
    Scenario.fresh_world
  = (Raise Scenario.file_not_found,
     {| trace := [EvMkdir "media/videos"; EvSleep 2]; files := ∅ |})
  ∧ exn_is_Exception Scenario.file_not_found = true
  ∧ ∃ w',
      generate_video (Scenario.service_env Scenario.missing_parent)
        Scenario.real_config 61 42 "dance video" ["p1.jpg"] (Some "vid_local")
        Scenario.fresh_world
      = (Ret (failed_result (PyStr "vid_local")
                (PyStr (exn_str Scenario.file_not_found))), w')
      ∧ head (trace w') = Some (EvMkdir "media/videos").
Proof.
  split; [reflexivity|]. split; [reflexivity|].
  eexists. split; [vm_compute; reflexivity|reflexivity].
Qed.

(** The mock path has no handler for either of its file operations: an
    error raised by [mkdir], or by [touch] once the directory is there,
    leaves [generate_video]. *)
Lemma mock_generate_raises (E : Env) (config : Config) fuel user_id prompt
    photos job_id w e :
  mock_mode config = true →
  (env_fs E (EvSleep 2 :: trace (after_job_id job_id w))
     (EvMkdir (video_storage_path config)) = Some e →
   ∃ w', generate_video E config fuel user_id prompt photos job_id w
         = (Raise e, w'))
  ∧ (env_fs E (EvSleep 2 :: trace (after_job_id job_id w))
       (EvMkdir (video_storage_path config)) = None →
     env_fs E (EvMkdir (video_storage_path config) :: EvSleep 2
               :: trace (after_job_id job_id w))
       (EvTouch (video_path_of E config (chosen_job_id E job_id w)))
       = Some e →
     ∃ w', generate_video E config fuel user_id prompt photos job_id w
           = (Raise e, w')).
Proof.
  intros Hmock. rewrite generate_video_dispatch, Hmock.
  unfold _mock_generate, bind, sleep, mkdir, touch, ret. simpl. split.
  - intros ->. simpl. by eexists.
  - intros -> Htouch. simpl.
    fold (video_path_of E config (chosen_job_id E job_id w)).
    rewrite Htouch. by eexists.
Qed.

Lemma real_generate_catches_witness :
  ∃ w',
    generate_video (Scenario.service_env Scenario.refusing_status)
      Scenario.real_config 10 42 "dance video" ["p1.jpg"] (Some "vid_local")
      Scenario.fresh_world
    = (Ret (failed_result (PyStr "vid_local")
              (PyStr "All connection attempts failed")), w').
Proof.
  eexists.
  apply (proj2 (real_generate_catches
                  (Scenario.service_env Scenario.refusing_status)
                  Scenario.real_config 10 42 "dance video" ["p1.jpg"]
                  (Some "vid_local") Scenario.fresh_world eq_refl)
           Scenario.connect_error).
  - discriminate.
  - vm_compute. reflexivity.
  - reflexivity.
Defined.

Section Polling.
Context (E : Env).

Lemma poll_response_inv remote_job_id response w verdict w' :
  poll_response E remote_job_id response w = (Ret verdict, w') →
  w' = w
  ∧ ∀ result, verdict = Some result →
      result !! "job_id" = Some remote_job_id.
Proof.
  unfold poll_response, bind, lift, ret.
  repeat case_match; intros Heq; simplify_eq; split; try reflexivity;
    intros result Hres; simplify_eq; reflexivity.
Qed.

Lemma poll_loop_job_id fuel api_key api_url remote_job_id max_wait
    start_time w result w' :
  poll_loop E fuel api_key api_url remote_job_id max_wait start_time w
    = (Ret result, w') →
  result !! "job_id" = Some remote_job_id.
Proof.
  revert w. induction fuel as [|fuel IH]; intros w; simpl;
    unfold bind at 1, datetime_now;
    destruct (timedelta_seconds _ <? max_wait).
  - discriminate.
  - intros [= <- _]. reflexivity.
  - intros Hrun.
    apply bind_Ret in Hrun as (response & w1 & _ & Hrun).
    apply bind_Ret in Hrun as (verdict & w2 & Hverdict & Hrun).
    apply poll_response_inv in Hverdict as [-> Hverdict].
    destruct verdict as [r|].
    + injection Hrun as <- _. by apply Hverdict.
    + apply bind_Ret in Hrun as ([] & w3 & _ & Hrun). by apply IH in Hrun.
  - intros [= <- _]. reflexivity.
Qed.

Lemma poll_for_completion_job_id fuel api_key api_url remote_job_id max_wait
    w result w' :
  _poll_for_completion E fuel api_key api_url remote_job_id max_wait w
    = (Ret result, w') →
  result !! "job_id" = Some remote_job_id.
Proof.
  unfold _poll_for_completion. intros Hrun.
  apply bind_Ret in Hrun as (start_time & w1 & _ & Hrun).
  by apply poll_loop_job_id in Hrun.
Qed.

End Polling.

Section RemoteJobId.
Context (E : Env) (config : Config).

Lemma generate_video_real fuel user_id prompt photos job_id w :
  mock_mode config = false →
  seedance_api_key config ≠ "" →
  generate_video E config fuel user_id prompt photos job_id w
    = try_except
        (real_generate_body E config fuel (seedance_api_key config)
           (seedance_api_url config) (chosen_job_id E job_id w) prompt photos)
        (λ e, ret (failed_result (PyStr (chosen_job_id E job_id w))
                     (PyStr (exn_str e))))
        (after_job_id job_id w).
Proof.
  intros Hmock Hkey. rewrite generate_video_dispatch, Hmock.
  unfold _real_generate. by rewrite (truthy_key _ Hkey).
Qed.

(** After a successful submit, a [try] body that ends normally returns
    a result whose job id is the remote handle. *)
Lemma real_generate_body_job_id fuel api_key api_url job_id prompt photos
    w0 w1 uploaded job_response data remote_job_id result w' :
  upload_photos E api_key api_url photos [] w0 = (Ret uploaded, w1) →
  uploaded ≠ [] →
  env_http E (trace w1) (submit_request api_url api_key prompt uploaded)
    = Ret job_response →
  status_code job_response = 200 →
  json job_response = Ret data →
  py_getitem E data "job_id" = Ret remote_job_id →
  real_generate_body E config fuel api_key api_url job_id prompt photos w0
    = (Ret result, w') →
  result !! "job_id" = Some remote_job_id.
Proof.
  intros Hupload Hne Hsubmit Hcode Hjson Hid Hbody.
  unfold real_generate_body in Hbody.
  apply bind_Ret in Hbody as (uploaded' & w1' & Hupload' & Hbody).
  rewrite Hupload in Hupload'. injection Hupload' as <- <-.
  destruct uploaded as [|u us]; [done|]. simpl in Hbody.
  apply bind_Ret in Hbody as (job_response' & w2 & Hsubmit' & Hbody).
  unfold http in Hsubmit'. fold (submit_request api_url api_key prompt (u :: us)) in Hsubmit'.
  rewrite Hsubmit in Hsubmit'. injection Hsubmit' as <- <-.
  rewrite Hcode in Hbody. simpl in Hbody.
  apply bind_Ret in Hbody as (data' & w3 & Hjson' & Hbody).
  unfold lift in Hjson'. rewrite Hjson in Hjson'. injection Hjson' as <- <-.
  apply bind_Ret in Hbody as (remote' & w4 & Hid' & Hbody).
  unfold lift in Hid'. rewrite Hid in Hid'. injection Hid' as <- <-.
  apply bind_Ret in Hbody as (polled & w5 & Hpoll & Hbody).
  apply poll_for_completion_job_id in Hpoll.
  apply bind_Ret in Hbody as (status & w6 & _ & Hbody).
  destruct (py_eq_str status "completed").
  - apply bind_Ret in Hbody as (video_url & w7 & _ & Hbody).
    apply bind_Ret in Hbody as ([] & w8 & _ & Hbody).
    apply bind_Ret in Hbody as (video_response & w9 & _ & Hbody).
    apply bind_Ret in Hbody as ([] & w10 & _ & Hbody).
    injection Hbody as <- _.
    by rewrite lookup_insert_ne.
  - by injection Hbody as <- _.
Qed.

(** C10, amended: in real mode, once the submit has succeeded, a run
    in which neither the polling nor the download raises returns a
    result whose [job_id] is the remote handle; when one of them
    raises an exception deriving from [Exception], the failed result
    carries the local job id instead. *)
Theorem result_job_id_after_submit fuel user_id prompt photos job_id w
    w1 uploaded job_response data remote_job_id o w' :
  mock_mode config = false →
  seedance_api_key config ≠ "" →
  upload_photos E (seedance_api_key config) (seedance_api_url config)
    photos [] (after_job_id job_id w) = (Ret uploaded, w1) →
  uploaded ≠ [] →
  env_http E (trace w1)
    (submit_request (seedance_api_url config) (seedance_api_key config)
       prompt uploaded) = Ret job_response →
  status_code job_response = 200 →
  json job_response = Ret data →
  py_getitem E data "job_id" = Ret remote_job_id →
  real_generate_body E config fuel (seedance_api_key config)
    (seedance_api_url config) (chosen_job_id E job_id w) prompt photos
    (after_job_id job_id w) = (o, w') →
  match o with
  | Ret result =>
      generate_video E config fuel user_id prompt photos job_id w
        = (Ret result, w')
      ∧ result !! "job_id" = Some remote_job_id
  | Raise e =>
      exn_is_Exception e = true →
      ∃ result,
        generate_video E config fuel user_id prompt photos job_id w
          = (Ret result, w')
        ∧ result !! "job_id" = Some (PyStr (chosen_job_id E job_id w))
        ∧ result !! "error" = Some (PyStr (exn_str e))
  | NoFuel => True
  end.
Proof.
  intros Hmock Hkey Hupload Hne Hsubmit Hcode Hjson Hid Hbody.
  rewrite (generate_video_real _ _ _ _ _ _ Hmock Hkey).
  unfold try_except. rewrite Hbody.
  destruct o as [result|e|]; [|intros Hkind; rewrite Hkind|exact I].
  - split; [reflexivity|].
    eapply real_generate_body_job_id; eassumption.
  - eexists. split; [reflexivity|]. split; reflexivity.
Qed.

End RemoteJobId.

(** C10, as stated, fails: the submit succeeds and the job completes,
    but the video cannot be written; the failed result carries the
    local job id, not the remote handle. *)
Lemma job_id_local_after_download_error :
  ∃ result w',
    generate_video (Scenario.service_env Scenario.full_disk)
      Scenario.real_config 10 42 "dance video" ["p1.jpg"] (Some "vid_local")
      Scenario.fresh_world = (Ret result, w')
    ∧ Scenario.on_submit Scenario.full_disk
        = Ret (Scenario.json_response (PyDict [("job_id", PyStr "remote-1")]))
    ∧ network_calls (trace w')
        = [Get (PyStr "https://cdn.example.com/v.mp4") None;
           status_request (Scenario.service_env Scenario.full_disk)
             "https://api.seedance.example.com/v1" "sk-test" (PyStr "remote-1");
           submit_request "https://api.seedance.example.com/v1" "sk-test"
             "dance video" [PyStr "file-1"];
           upload_request "https://api.seedance.example.com/v1" "sk-test"
             "p1.jpg"]
    ∧ result !! "job_id" = Some (PyStr "vid_local")
    ∧ result !! "job_id" ≠ Some (PyStr "remote-1").
Proof.
  eexists _, _. split; [vm_compute; reflexivity|].
  repeat split. discriminate.
Qed.

Lemma result_job_id_after_submit_witness :
  ∃ result w',
    generate_video (Scenario.service_env Scenario.healthy)
      Scenario.real_config 10 42 "dance video" ["p1.jpg"] (Some "vid_local")
      Scenario.fresh_world = (Ret result, w')
    ∧ result !! "job_id" = Some (PyStr "remote-1").
Proof.
  eexists _, _.
  refine (result_job_id_after_submit (Scenario.service_env Scenario.healthy)
            Scenario.real_config 10 42 "dance video" ["p1.jpg"]
            (Some "vid_local") Scenario.fresh_world _ [PyStr "file-1"]
            (Scenario.json_response (PyDict [("job_id", PyStr "remote-1")]))
            _ (PyStr "remote-1") (Ret _) _ eq_refl _ _ _ _ eq_refl eq_refl
            eq_refl _).
  - discriminate.
  - vm_compute. reflexivity.
  - discriminate.
  - reflexivity.
  - vm_compute. reflexivity.
Defined.

Section PollingCycles.
Context (E : Env) (api_key api_url : string) (remote_job_id : pyval).
Context (max_wait start_time : Z).

Local Abbreviation get := (status_request E api_url api_key remote_job_id).
Local Abbreviation loop fuel :=
  (poll_loop E fuel api_key api_url remote_job_id max_wait start_time).

Lemma non_200_reads_as_pending response :
  status_code response ≠ 200 → reads_as_pending E remote_job_id response.
Proof.
  intros Hcode w. unfold poll_response.
  destruct (Z.eqb_spec (status_code response) 200); [done|reflexivity].
Qed.

(** A turn of the loop on a response that reads as pending. *)
Lemma poll_loop_cycle fuel w response :
  timedelta_seconds (elapsed E start_time w) < max_wait →
  env_http E (EvNow :: trace w) get = Ret response →
  reads_as_pending E remote_job_id response →
  loop (S fuel) w = loop fuel (poll_cycle get w).
Proof.
  intros Hcheck Hget Hpending. simpl.
  unfold bind at 1, datetime_now. fold (elapsed E start_time w).
  destruct (Z.ltb_spec (timedelta_seconds (elapsed E start_time w)) max_wait);
    [|lia].
  unfold bind at 1, http. simpl. unfold status_request in Hget.
  rewrite Hget. unfold bind at 1. rewrite Hpending. reflexivity.
Qed.

(** A turn of the loop on a request that raises. *)
Lemma poll_loop_raise fuel w e :
  timedelta_seconds (elapsed E start_time w) < max_wait →
  env_http E (EvNow :: trace w) get = Raise e →
  loop (S fuel) w
    = (Raise e, record_event (EvHttp get) (record_event EvNow w)).
Proof.
  intros Hcheck Hget. simpl.
  unfold bind at 1, datetime_now. fold (elapsed E start_time w).
  destruct (Z.ltb_spec (timedelta_seconds (elapsed E start_time w)) max_wait);
    [|lia].
  unfold bind at 1, http. simpl. unfold status_request in Hget.
  rewrite Hget. reflexivity.
Qed.

(** The loop at a deadline check that fails. *)
Lemma poll_loop_deadline fuel w :
  max_wait ≤ timedelta_seconds (elapsed E start_time w) →
  loop fuel w = (Ret (timeout_result remote_job_id), record_event EvNow w).
Proof.
  intros Hcheck.
  destruct fuel; simpl; unfold bind at 1, datetime_now;
    fold (elapsed E start_time w);
    destruct (Z.ltb_spec (timedelta_seconds (elapsed E start_time w)) max_wait);
    (lia || reflexivity).
Qed.

(** One turn of the polling loop that starts before the deadline: a
    status request answered with a status code other than 200 is read
    as pending, and the loop sleeps five seconds and goes round again; a
    status request that raises ends the loop at once with that
    exception, without a sleep. *)
Theorem status_error_in_cycle fuel w :
  timedelta_seconds (elapsed E start_time w) < max_wait →
  (∀ response,
     env_http E (EvNow :: trace w) get = Ret response →
     status_code response ≠ 200 →
     reads_as_pending E remote_job_id response
     ∧ loop (S fuel) w = loop fuel (poll_cycle get w))
  ∧ (∀ e,
       env_http E (EvNow :: trace w) get = Raise e →
       loop (S fuel) w
         = (Raise e, record_event (EvHttp get) (record_event EvNow w))).
Proof.
  intros Hcheck. split.
  - intros response Hget Hcode.
    pose proof (non_200_reads_as_pending _ Hcode) as Hpending.
    split; [exact Hpending|]. by eapply poll_loop_cycle.
  - intros e Hget. by apply poll_loop_raise.
Qed.

End PollingCycles.

Lemma timedelta_seconds_within_a_day (us : Z) :
  0 ≤ us < 86400000000 → timedelta_seconds us = us / 1000000.
Proof.
  intros Hus. unfold timedelta_seconds. apply Z.mod_small.
  Z.div_mod_to_equations. lia.
Qed.

Lemma deadline_reached (us max_wait : Z) :
  0 ≤ us < 86400000000 →
  max_wait * 1000000 ≤ us → max_wait ≤ timedelta_seconds us.
Proof.
  intros Hus Hle. rewrite timedelta_seconds_within_a_day by exact Hus.
  Z.div_mod_to_equations. lia.
Qed.

Lemma deadline_ahead (us max_wait : Z) :
  0 ≤ us < 86400000000 →
  us < max_wait * 1000000 → timedelta_seconds us < max_wait.
Proof.
  intros Hus Hlt. rewrite timedelta_seconds_within_a_day by exact Hus.
  Z.div_mod_to_equations. lia.
Qed.

Section Deadline.
Context (E : Env) (api_key api_url : string) (remote_job_id : pyval).
Context (max_wait start_time c : Z).

Local Abbreviation get := (status_request E api_url api_key remote_job_id).
Local Abbreviation loop fuel :=
  (poll_loop E fuel api_key api_url remote_job_id max_wait start_time).

Hypothesis max_wait_nonneg : 0 ≤ max_wait.
Hypothesis within_a_day : max_wait * 1000000 + c < 86400000000.
Hypothesis clock_steady : steady_clock E get c.
Hypothesis always_pending :
  ∀ tr, ∃ response,
    env_http E tr get = Ret response
    ∧ reads_as_pending E remote_job_id response.

Lemma elapsed_poll_cycle w :
  5000000 ≤ elapsed E start_time (poll_cycle get w) - elapsed E start_time w ≤ c.
Proof.
  unfold elapsed, poll_cycle. simpl.
  destruct (clock_steady (trace w)) as [_ Hcycle]. lia.
Qed.

(** From a world where less than [max_wait] seconds plus a turn have
    passed, the loop gives up at the first check that finds [max_wait]
    seconds gone; [N] turns are enough when each takes five seconds. *)
Lemma poll_loop_times_out (N : nat) (w : World) :
  0 ≤ elapsed E start_time w ≤ max_wait * 1000000 + c →
  max_wait * 1000000 - elapsed E start_time w ≤ 5000000 * Z.of_nat N →
  ∃ n, (n ≤ N)%nat
    ∧ (∀ i, (i < n)%nat →
         elapsed E start_time (Nat.iter i (poll_cycle get) w)
           < max_wait * 1000000)
    ∧ max_wait * 1000000
        ≤ elapsed E start_time (Nat.iter n (poll_cycle get) w)
        ≤ max_wait * 1000000 + c
    ∧ ∀ fuel, (n ≤ fuel)%nat →
        loop fuel w
          = (Ret (timeout_result remote_job_id),
             record_event EvNow (Nat.iter n (poll_cycle get) w)).
Proof.
  revert w. induction N as [|N IH]; intros w Hel Hleft.
  - exists 0%nat. split; [lia|]. split; [intros i Hi; lia|]. simpl.
    split; [lia|]. intros fuel _. apply poll_loop_deadline.
    apply deadline_reached; lia.
  - destruct (Z.lt_ge_cases (elapsed E start_time w) (max_wait * 1000000))
      as [Hbefore|Hafter].
    + pose proof (elapsed_poll_cycle w) as Hcycle.
      destruct (IH (poll_cycle get w)) as (n & Hn & Hearly & Hexit & Hrun);
        [lia | lia |].
      exists (S n). rewrite Nat.iter_succ_r.
      split; [lia|]. split; [|split; [exact Hexit|]].
      * intros [|i] Hi; [exact Hbefore|].
        rewrite Nat.iter_succ_r. apply Hearly. lia.
      * intros [|fuel] Hfuel; [lia|].
        destruct (always_pending (EvNow :: trace w))
          as (response & Hget & Hpending).
        rewrite (poll_loop_cycle E api_key api_url remote_job_id max_wait
                   start_time fuel w response);
          [apply Hrun; lia | apply deadline_ahead; lia | exact Hget
          | exact Hpending].
    + exists 0%nat. split; [lia|]. split; [intros i Hi; lia|]. simpl.
      split; [lia|]. intros fuel _. apply poll_loop_deadline.
      apply deadline_reached; lia.
Qed.

End Deadline.

(** C7, amended: when every status request is answered by a response
    that the poller reads as pending (a status code other than 200, or
    a 200 response whose body is a JSON object with a status that is
    missing or is neither completed nor failed), on a wall clock on
    which two readings in a row differ by between zero and [c]
    microseconds and a turn of the loop takes between the five seconds
    of its sleep and [c] microseconds, with [max_wait] at least zero and
    [max_wait] seconds plus [c] shorter than a day,
    [_poll_for_completion] returns the timeout failure after some
    number [n] of turns, at most [max_wait / 5 + 1]; every status request
    follows a check that read less than [max_wait] seconds, and the
    check that ends the loop reads at least [max_wait] seconds and at
    most [c] microseconds more: [max_wait] bounds the moment the last
    request starts, not the end of the polling phase. *)
Theorem poll_until_deadline (E : Env) (api_key api_url : string)
    (remote_job_id : pyval) (max_wait c : Z) (w : World) :
  0 ≤ max_wait →
  max_wait * 1000000 + c < 86400000000 →
  steady_clock E (status_request E api_url api_key remote_job_id) c →
  (∀ tr, ∃ response,
     env_http E tr (status_request E api_url api_key remote_job_id)
       = Ret response
     ∧ reads_as_pending E remote_job_id response) →
  ∃ n, (n ≤ Z.to_nat (max_wait / 5 + 1))%nat
    ∧ (∀ fuel, (n ≤ fuel)%nat →
         _poll_for_completion E fuel api_key api_url remote_job_id max_wait w
           = (Ret (timeout_result remote_job_id),
              record_event EvNow
                (Nat.iter n
                   (poll_cycle (status_request E api_url api_key remote_job_id))
                   (record_event EvNow w))))
    ∧ (∀ i, (i < n)%nat →
         elapsed E (env_now E (trace w))
           (Nat.iter i
              (poll_cycle (status_request E api_url api_key remote_job_id))
              (record_event EvNow w))
           < max_wait * 1000000)
    ∧ max_wait * 1000000
        ≤ elapsed E (env_now E (trace w))
            (Nat.iter n
               (poll_cycle (status_request E api_url api_key remote_job_id))
               (record_event EvNow w))
        ≤ max_wait * 1000000 + c.
Proof.
  intros Hwait Hday Hclock Hpending.
  destruct (Hclock (trace w)) as [Hfirst _].
  destruct (poll_loop_times_out E api_key api_url remote_job_id max_wait
              (env_now E (trace w)) c Hday Hclock Hpending
              (Z.to_nat (max_wait / 5 + 1)) (record_event EvNow w))
    as (n & Hn & Hearly & Hexit & Hrun).
  - unfold elapsed. simpl. lia.
  - unfold elapsed. simpl. rewrite Z2Nat.id by (Z.div_mod_to_equations; lia).
    Z.div_mod_to_equations. lia.
  - exists n. split; [exact Hn|]. split; [|split; [exact Hearly|exact Hexit]].
    intros fuel Hfuel. unfold _poll_for_completion, bind, datetime_now.
    apply Hrun. exact Hfuel.
Qed.

Lemma poll_until_deadline_witness :
  ∃ n, (n ≤ 61)%nat
    ∧ ∀ fuel, (n ≤ fuel)%nat →
        _poll_for_completion (Scenario.service_env Scenario.never_done) fuel
          "sk-test" "https://api.seedance.example.com/v1" (PyStr "remote-1")
          300 Scenario.fresh_world
        = (Ret (timeout_result (PyStr "remote-1")),
           record_event EvNow
             (Nat.iter n
                (poll_cycle
                   (status_request (Scenario.service_env Scenario.never_done)
                      "https://api.seedance.example.com/v1" "sk-test"
                      (PyStr "remote-1")))
                (record_event EvNow Scenario.fresh_world))).
Proof.
  destruct (poll_until_deadline (Scenario.service_env Scenario.never_done)
              "sk-test" "https://api.seedance.example.com/v1"
              (PyStr "remote-1") 300 5000000 Scenario.fresh_world)
    as (n & Hn & Hrun & _).
  - lia.
  - lia.
  - intros tr. simpl. lia.
  - intros tr. eexists. split; [reflexivity|]. intros w. reflexivity.
  - exists n. split; [exact Hn|exact Hrun].
Defined.

(** C7, as stated, fails, in each of these runs where no status response
    ever reports a terminal status and [max_wait] is 300 seconds:
    - the status endpoint cannot be reached: the poller raises at the
      first request, with no time gone, and returns no timeout failure;
    - every status request is answered 200 with the JSON body [[]]: the
      poller raises at the first request;
    - every status request takes 400 seconds: the timeout failure is
      returned at the check made 405 seconds after the start, so the
      polling phase outlasts [max_wait];
    - the wall clock is set back one second after the start: the timeout
      failure is returned at once, before any request;
    - every status request takes a day: the seconds field wraps, and
      the timeout failure only comes after 60 status requests;
    - the wall clock stands still: after 1000 turns the loop has not
      returned. *)
Lemma poller_outside_its_deadline :
  _poll_for_completion (Scenario.service_env Scenario.refusing_status)
    61 "sk-test" "https://api.seedance.example.com/v1"
    (PyStr "remote-1") 300 Scenario.fresh_world
  = (Raise Scenario.connect_error,
     {| trace :=
          [EvHttp (status_request
                     (Scenario.service_env Scenario.refusing_status)
                     "https://api.seedance.example.com/v1" "sk-test"
                     (PyStr "remote-1"));
           EvNow; EvNow];
        files := ∅ |})
  ∧ (∃ e w',
       _poll_for_completion (Scenario.service_env Scenario.list_body_status)
         61 "sk-test" "https://api.seedance.example.com/v1"
         (PyStr "remote-1") 300 Scenario.fresh_world = (Raise e, w')
       ∧ length (network_calls (trace w')) = 1%nat)
  ∧ (_poll_for_completion (Scenario.service_env (Scenario.slow_status 400))
       61 "sk-test" "https://api.seedance.example.com/v1"
       (PyStr "remote-1") 300 Scenario.fresh_world
     = (Ret (timeout_result (PyStr "remote-1")),
        {| trace :=
             [EvNow; EvSleep 5;
              EvHttp (status_request
                        (Scenario.service_env (Scenario.slow_status 400))
                        "https://api.seedance.example.com/v1" "sk-test"
                        (PyStr "remote-1"));
              EvNow; EvNow];
           files := ∅ |})
     ∧ elapsed (Scenario.service_env (Scenario.slow_status 400)) 0
         {| trace :=
              [EvSleep 5;
               EvHttp (status_request
                         (Scenario.service_env (Scenario.slow_status 400))
                         "https://api.seedance.example.com/v1" "sk-test"
                         (PyStr "remote-1"));
               EvNow; EvNow];
            files := ∅ |}
       = 405000000)
  ∧ (_poll_for_completion Scenario.clock_set_back
       61 "sk-test" "https://api.seedance.example.com/v1"
       (PyStr "remote-1") 300 Scenario.fresh_world
     = (Ret (timeout_result (PyStr "remote-1")),
        {| trace := [EvNow; EvNow]; files := ∅ |})
     ∧ env_now Scenario.clock_set_back [] = 1000000
     ∧ env_now Scenario.clock_set_back [EvNow] = 0)
  ∧ (∃ w',
       _poll_for_completion (Scenario.service_env (Scenario.slow_status 86400))
         61 "sk-test" "https://api.seedance.example.com/v1"
         (PyStr "remote-1") 300 Scenario.fresh_world
       = (Ret (timeout_result (PyStr "remote-1")), w')
       ∧ length (network_calls (trace w')) = 60%nat)
  ∧ (∃ w',
       _poll_for_completion Scenario.stopped_clock
         1000 "sk-test" "https://api.seedance.example.com/v1"
         (PyStr "remote-1") 300 Scenario.fresh_world = (NoFuel, w')
       ∧ length (network_calls (trace w')) = 1000%nat).
Proof.
  split; [reflexivity|].
  split; [eexists _, _; split; [vm_compute; reflexivity|reflexivity]|].
  split; [split; [vm_compute|]; reflexivity|].
  split; [split; [vm_compute; reflexivity|split; reflexivity]|].
  split; eexists; (split; [vm_compute; reflexivity|vm_compute; reflexivity]).
Qed.


Lemma status_error_in_cycle_witness :
  poll_loop (Scenario.service_env Scenario.unavailable_status) 6 "sk-test"
    "https://api.seedance.example.com/v1" (PyStr "remote-1") 300 0
    Scenario.fresh_world
  = poll_loop (Scenario.service_env Scenario.unavailable_status) 5 "sk-test"
      "https://api.seedance.example.com/v1" (PyStr "remote-1") 300 0
      (poll_cycle
         (status_request (Scenario.service_env Scenario.unavailable_status)
            "https://api.seedance.example.com/v1" "sk-test" (PyStr "remote-1"))
         Scenario.fresh_world).
Proof.
  destruct (status_error_in_cycle
              (Scenario.service_env Scenario.unavailable_status) "sk-test"
              "https://api.seedance.example.com/v1" (PyStr "remote-1") 300 0
              5 Scenario.fresh_world) as [Hcode _].
  - reflexivity.
  - apply (Hcode (Scenario.error_response 503 "Service Unavailable")).
    + reflexivity.
    + simpl. lia.
Defined.

(** ** Runs of the whole pipeline *)

(** The seconds field wraps: a clock read one microsecond before the
    start, or a day and five seconds after it, gives 86399 and 5. *)
Example timedelta_seconds_backwards : timedelta_seconds (-1) = 86399.
Proof. reflexivity. Qed.

Example timedelta_seconds_next_day : timedelta_seconds 86405000000 = 5.
Proof. reflexivity. Qed.

Example reset_from_any_state (s : VideoSession.t) :
  VideoSession.reset s = VideoSession.create_video_session.
Proof. reflexivity. Qed.

(** One photo, a prompt, then a mock generation. *)
Example session_then_mock_generation :
  let s := VideoSession.step (VideoSession.SetPrompt "dance video")
             (VideoSession.step (VideoSession.AddPhoto "p1.jpg")
                VideoSession.create_video_session) in
  truthy (VideoSession.is_ready s) = true
  ∧ ∃ result w',
      generate_video (Scenario.service_env Scenario.healthy)
        Scenario.mock_config 0 42 (VideoSession.prompt s)
        (VideoSession.photos s) None Scenario.fresh_world = (Ret result, w')
      ∧ result !! "status" = Some (PyStr "completed")
      ∧ result !! "video_path"
          = Some (PyStr "media/videos/vid_0123456789ab.mp4")
      ∧ trace w'
          = [EvTouch "media/videos/vid_0123456789ab.mp4";
             EvMkdir "media/videos"; EvSleep 2; EvUuid].
Proof.
  split; [reflexivity|]. eexists _, _.
  split; [vm_compute; reflexivity|]. repeat split.
Qed.

(** Pending twice, then completed: three status requests, two sleeps,
    and the video stored under the local job id. *)
Example pending_twice_then_completed :
  ∃ result w',
    generate_video (Scenario.completes_after 2) Scenario.real_config 10 42
      "dance video" ["p1.jpg"] (Some "vid_local") Scenario.fresh_world
      = (Ret result, w')
    ∧ result !! "status" = Some (PyStr "completed")
    ∧ result !! "job_id" = Some (PyStr "remote-1")
    ∧ result !! "video_path" = Some (PyStr "media/videos/vid_local.mp4")
    ∧ files w' !! "media/videos/vid_local.mp4" = Some "MP4DATA"
    ∧ length (filter (λ q, Scenario.is_status_request q = true)
                (network_calls (trace w'))) = 3%nat
    ∧ length (filter (λ e, Scenario.is_sleep e = true) (trace w')) = 2%nat.
Proof.
  eexists _, _. split; [vm_compute; reflexivity|].
  repeat split; vm_compute; reflexivity.
Qed.

(** ** Further properties of VideoSession *)

Section SessionSequences.
Import VideoSession.

(** X1: [add_photo] returns [True] exactly when the session is idle or
    collecting photos and holds fewer than four; it then appends the
    path at the end and leaves the session collecting photos.  When it
    returns [False] the photos and the prompt are as before. *)
Theorem add_photo_accepts_iff (p : string) (s : t) :
  (fst (add_photo p s) = true ↔
   (state s = idle ∨ state s = collecting_photos)
   ∧ (length (photos s) < 4)%nat)
  ∧ (fst (add_photo p s) = true →
     snd (add_photo p s)
       = {| state := collecting_photos;
            photos := photos s ++ [p];
            prompt := prompt s |})
  ∧ (fst (add_photo p s) = false →
     photos (snd (add_photo p s)) = photos s
     ∧ prompt (snd (add_photo p s)) = prompt s).
Proof.
  unfold add_photo. destruct s as [st ph pr]; simpl.
  destruct st; simpl;
    try destruct (Z.ltb_spec (Z.of_nat (length ph)) 4); simpl;
    (split; [split|split]); try done; try discriminate;
    try (intros _; split; [auto|lia]);
    try (intros [_ ?]; lia);
    try (intros [[?|?] _]; discriminate).
Qed.

Lemma add_photo_fills (p : string) (s : t) :
  (state s = idle ∨ state s = collecting_photos) →
  (length (photos s) ≤ 4)%nat →
  state (snd (add_photo p s)) = collecting_photos
  ∧ photos (snd (add_photo p s)) = take 4 (photos s ++ [p]).
Proof.
  intros Hst Hlen. unfold add_photo. destruct s as [st ph pr]; simpl in *.
  assert (Hcases :
    (if Z.of_nat (length ph) <? 4 then ph ++ [p] else ph) = take 4 (ph ++ [p])).
  { destruct (Z.ltb_spec (Z.of_nat (length ph)) 4).
    - rewrite take_ge; [done|]. rewrite length_app. simpl. lia.
    - rewrite take_app_le by lia. rewrite take_ge; [done|lia]. }
  destruct Hst as [-> | ->]; simpl;
    destruct (Z.of_nat (length ph) <? 4); simpl; split; done.
Qed.

Lemma add_photos_from (ps : list string) (s : t) :
  (state s = idle ∨ state s = collecting_photos) →
  (length (photos s) ≤ 4)%nat →
  photos (run_ops (AddPhoto <$> ps) s) = take 4 (photos s ++ ps).
Proof.
  revert s. induction ps as [|p ps IH]; intros s Hst Hlen; simpl.
  - rewrite app_nil_r, take_ge; [done|lia].
  - destruct (add_photo_fills p s Hst Hlen) as [Hst' Hph'].
    rewrite IH; [|right; exact Hst'|rewrite Hph', length_take; lia].
    rewrite Hph'.
    destruct (decide (length (photos s) < 4)%nat) as [Hroom|Hfull].
    + rewrite (take_ge (photos s ++ [p]))
        by (rewrite length_app; simpl; lia).
      by rewrite <- app_assoc.
    + rewrite (take_app_le (photos s) [p]) by lia.
      rewrite (take_ge (photos s)) by lia.
      rewrite !take_app_le by lia. by rewrite !take_ge by lia.
Qed.

(** X2: sending any list of photos to a fresh session keeps the first
    four, in the order they were sent. *)
Theorem add_photos_keeps_first_four (ps : list string) :
  photos (run_ops (AddPhoto <$> ps) create_video_session) = take 4 ps.
Proof. apply (add_photos_from ps create_video_session); simpl; [auto|lia]. Qed.

(** X3: on every session built through the methods, an idle session
    holds no photo and no prompt, and a session collecting photos holds
    at least one photo and no prompt. *)
Theorem state_determines_content (s : t) :
  reachable s →
  (state s = idle → photos s = [] ∧ prompt s = "")
  ∧ (state s = collecting_photos → photos s ≠ [] ∧ prompt s = "").
Proof.
  induction 1 as [|s o Hs [Hidle Hcoll] _].
  - split; [done|discriminate].
  - destruct o as [p|text| |]; simpl.
    + unfold add_photo. destruct s as [st ph pr]; simpl in *.
      destruct st; simpl.
      * destruct (Hidle eq_refl) as [-> ->]. simpl.
        split; [discriminate|]. intros _. split; done.
      * destruct (Hcoll eq_refl) as [Hne ->].
        destruct (Z.of_nat (length ph) <? 4); simpl;
          (split; [discriminate|]); intros _; (split; [|done]);
          [by destruct ph | exact Hne].
      * split; discriminate.
      * split; discriminate.
    + split; discriminate.
    + split; discriminate.
    + split; [done|discriminate].
Qed.

Lemma state_determines_content_witness :
  let s := step (AddPhoto "p1.jpg") create_video_session in
  reachable s ∧ photos s ≠ [] ∧ prompt s = "".
Proof.
  assert (Hs : reachable (step (AddPhoto "p1.jpg") create_video_session)).
  { apply reach_step; [apply reach_init|exact I]. }
  split; [exact Hs|].
  exact (proj2 (state_determines_content _ Hs) eq_refl).
Defined.

Lemma step_after_prompt (o : op) (s : t) :
  prompt_given s → o ≠ Reset →
  prompt_given (step o s) ∧ photos (step o s) = photos s.
Proof.
  intros Hst Ho. destruct o as [p|text| |]; simpl.
  - unfold add_photo, prompt_given in *. destruct s as [st ph pr]; simpl in *.
    destruct Hst as [-> | ->]; simpl; auto.
  - split; [left|]; reflexivity.
  - split; [right|]; reflexivity.
  - done.
Qed.

(** X4: once a prompt has been given (the session waits for the prompt
    or is processing), no sequence of calls without [reset] changes the
    photos: [add_photo] is refused until the session is reset. *)
Theorem photos_frozen_after_prompt (ops : list op) (s : t) :
  prompt_given s →
  Forall (λ o, o ≠ Reset) ops →
  prompt_given (run_ops ops s) ∧ photos (run_ops ops s) = photos s.
Proof.
  intros Hst Hops. revert s Hst.
  induction Hops as [|o ops Ho _ IH]; intros s Hst; simpl; [done|].
  destruct (step_after_prompt o s Hst Ho) as [Hst' Hph'].
  destruct (IH _ Hst') as [Hfinal Hph]. split; [exact Hfinal|congruence].
Qed.

Lemma photos_frozen_after_prompt_witness :
  let s := step (SetPrompt "dance video")
             (step (AddPhoto "p1.jpg") create_video_session) in
  photos (run_ops [AddPhoto "p2.jpg"; StartProcessing; AddPhoto "p3.jpg"] s)
    = ["p1.jpg"].
Proof.
  apply (photos_frozen_after_prompt
           [AddPhoto "p2.jpg"; StartProcessing; AddPhoto "p3.jpg"]
           (step (SetPrompt "dance video")
              (step (AddPhoto "p1.jpg") create_video_session))).
  - left. reflexivity.
  - repeat constructor; discriminate.
Defined.

(** X5: a prompt given to a session without photos is a dead end: no
    sequence of calls without [reset] makes [is_ready()] truthy. *)
Theorem prompt_before_photo_never_ready (text : string) (ops : list op) (s : t) :
  photos s = [] →
  Forall (λ o, o ≠ Reset) ops →
  truthy (is_ready (run_ops ops (set_prompt text s))) = false.
Proof.
  intros Hempty Hops.
  destruct (photos_frozen_after_prompt ops (set_prompt text s)) as [_ Hph];
    [left; reflexivity | exact Hops |].
  unfold is_ready, py_and. rewrite Hph. simpl. rewrite Hempty. reflexivity.
Qed.

Lemma prompt_before_photo_never_ready_witness :
  truthy (is_ready (run_ops [AddPhoto "p1.jpg"; SetPrompt "walk"]
                      (set_prompt "dance video" create_video_session)))
    = false.
Proof.
  apply (prompt_before_photo_never_ready "dance video"
           [AddPhoto "p1.jpg"; SetPrompt "walk"] create_video_session).
  - reflexivity.
  - repeat constructor; discriminate.
Defined.

End SessionSequences.

(** ** Requests issued by the generator *)

Section Emits.
Context {A B : Type} (P : request → Prop).

Lemma emits_ret (a : A) : emits P (ret a).
Proof. intros w o w' [= <- <-]. exists []. by split. Qed.

Lemma emits_lift (o : outcome A) : emits P (lift o).
Proof. intros w o' w' [= <- <-]. exists []. by split. Qed.

Lemma emits_bind (c : M A) (k : A → M B) :
  emits P c → (∀ a, emits P (k a)) → emits P (bind c k).
Proof.
  intros Hc Hk w o w'. unfold bind.
  destruct (c w) as [[a|e|] w1] eqn:Hrun; intros Hout;
    destruct (Hc _ _ _ Hrun) as (new1 & Htr1 & Hnew1).
  - destruct (Hk a _ _ _ Hout) as (new2 & Htr2 & Hnew2).
    exists (new2 ++ new1). rewrite Htr2, Htr1, app_assoc.
    split; [done|]. by apply Forall_app.
  - injection Hout as <- <-. eauto.
  - injection Hout as <- <-. eauto.
Qed.

Lemma emits_try_except (body : M A) (handler : exn → M A) :
  emits P body → (∀ e, emits P (handler e)) → emits P (try_except body handler).
Proof.
  intros Hbody Hhandler w o w'. unfold try_except.
  destruct (body w) as [[a|e|] w1] eqn:Hrun; intros Hout;
    destruct (Hbody _ _ _ Hrun) as (new1 & Htr1 & Hnew1).
  - injection Hout as <- <-. eauto.
  - destruct (exn_is_Exception e).
    + destruct (Hhandler e _ _ _ Hout) as (new2 & Htr2 & Hnew2).
      exists (new2 ++ new1). rewrite Htr2, Htr1, app_assoc.
      split; [done|]. by apply Forall_app.
    + injection Hout as <- <-. eauto.
  - injection Hout as <- <-. eauto.
Qed.

End Emits.

Section EmitsPrimitives.
Context (E : Env) (P : request → Prop).

Lemma emits_http (r : request) : P r → emits P (http E r).
Proof.
  intros Hr w o w' [= <- <-]. exists [r]. split; [done|]. by constructor.
Qed.

Lemma emits_sleep (seconds : Z) : emits P (sleep seconds).
Proof. intros w o w' [= <- <-]. exists []. by split. Qed.

Lemma emits_datetime_now : emits P (datetime_now E).
Proof. intros w o w' [= <- <-]. exists []. by split. Qed.

Lemma emits_uuid4_hex : emits P (uuid4_hex E).
Proof. intros w o w' [= <- <-]. exists []. by split. Qed.

Lemma emits_open_rb (path : string) : emits P (open_rb E path).
Proof. intros w o w' [= <- <-]. exists []. by split. Qed.

Lemma emits_mkdir (dir : string) : emits P (mkdir E dir).
Proof. intros w o w' [= <- <-]. exists []. by split. Qed.

Lemma emits_touch (path : string) : emits P (touch E path).
Proof.
  intros w o w'. unfold touch.
  destruct (env_fs E (trace w) (EvTouch path)); intros [= <- <-];
    exists []; by split.
Qed.

Lemma emits_write_bytes (path data : string) : emits P (write_bytes E path data).
Proof.
  intros w o w'. unfold write_bytes.
  destruct (env_fs E (trace w) (EvWriteBytes path data)); intros [= <- <-];
    exists []; by split.
Qed.

End EmitsPrimitives.

Create HintDb emits.
#[local] Hint Resolve emits_ret emits_lift emits_sleep emits_datetime_now
  emits_uuid4_hex emits_open_rb emits_mkdir emits_touch emits_write_bytes
  : emits.

Ltac emits_step :=
  first
    [ apply emits_bind; [|intros ?]
    | apply emits_try_except; [|intros ?]
    | solve [auto with emits] ].

Section GeneratorRequests.
Context (E : Env) (config : Config).

Lemma emits_mock_generate P job_id prompt photos :
  emits P (_mock_generate E config job_id prompt photos).
Proof. unfold _mock_generate. repeat emits_step. Qed.

Lemma emits_poll_response P remote_job_id response :
  emits P (poll_response E remote_job_id response).
Proof.
  unfold poll_response.
  repeat first [emits_step | case_match].
Qed.

Lemma emits_poll_loop fuel remote_job_id max_wait start_time :
  emits (allowed_request config)
    (poll_loop E fuel (seedance_api_key config) (seedance_api_url config)
       remote_job_id max_wait start_time).
Proof.
  induction fuel as [|fuel IH]; simpl.
  - emits_step; [emits_step|]. case_match; emits_step.
  - emits_step; [emits_step|]. case_match; [|emits_step].
    emits_step.
    { apply emits_http. simpl. split; [done|]. by eexists. }
    emits_step; [apply emits_poll_response|].
    case_match; [emits_step|]. emits_step; [emits_step|exact IH].
Qed.

Lemma emits_upload_photos photos uploaded :
  emits (allowed_request config)
    (upload_photos E (seedance_api_key config) (seedance_api_url config)
       photos uploaded).
Proof.
  revert uploaded. induction photos as [|photo_path rest IH];
    intros uploaded; simpl; [emits_step|].
  emits_step; [emits_step|].
  emits_step; [by apply emits_http|].
  emits_step; [|apply IH].
  case_match; repeat emits_step.
Qed.

Lemma emits_real_generate_body fuel job_id prompt photos :
  emits (allowed_request config)
    (real_generate_body E config fuel (seedance_api_key config)
       (seedance_api_url config) job_id prompt photos).
Proof.
  unfold real_generate_body.
  emits_step; [apply emits_upload_photos|].
  case_match; [emits_step|].
  emits_step; [by apply emits_http|].
  case_match; [emits_step|].
  do 2 (emits_step; [emits_step|]).
  emits_step.
  { unfold _poll_for_completion. emits_step; [emits_step|].
    apply emits_poll_loop. }
  emits_step; [emits_step|].
  case_match; [|emits_step].
  emits_step; [emits_step|]. emits_step; [emits_step|].
  emits_step; [by apply emits_http|].
  repeat emits_step.
Qed.

(** X6: however a call of [generate_video] ends, the requests it issues
    go to the upload, generate and job-status endpoints under the
    configured API URL, each carrying the configured API key, or are
    downloads that carry no credentials; the key is sent nowhere else. *)
Theorem generate_video_requests fuel user_id prompt photos job_id :
  emits (allowed_request config)
    (generate_video E config fuel user_id prompt photos job_id).
Proof.
  unfold generate_video.
  emits_step.
  { destruct job_id; repeat emits_step. }
  case_match; [apply emits_mock_generate|].
  unfold _real_generate. case_match; [emits_step|].
  emits_step; [apply emits_real_generate_body | emits_step].
Qed.

(** X7: in mock mode [generate_video] issues no request, however it
    ends (also when creating the directory or the file fails). *)
Theorem mock_generate_offline fuel user_id prompt photos job_id w o w' :
  mock_mode config = true →
  generate_video E config fuel user_id prompt photos job_id w = (o, w') →
  network_calls (trace w') = network_calls (trace w).
Proof.
  intros Hmock Hrun.
  assert (Hemits : emits (λ _, False)
            (generate_video E config fuel user_id prompt photos job_id)).
  { unfold generate_video. rewrite Hmock.
    emits_step; [destruct job_id; repeat emits_step|].
    apply emits_mock_generate. }
  destruct (Hemits _ _ _ Hrun) as (new & Htr & Hnew).
  destruct new as [|r new]; [exact Htr|].
  by apply Forall_cons in Hnew as [[] _].
Qed.

End GeneratorRequests.

Lemma mock_generate_offline_witness :
  generate_video (Scenario.service_env Scenario.missing_parent)
    Scenario.mock_config 0 42 "dance video" ["p1.jpg"] None
    Scenario.fresh_world
  = (Raise Scenario.file_not_found,
     {| trace := [EvMkdir "media/videos"; EvSleep 2; EvUuid]; files := ∅ |})
  ∧ network_calls [EvMkdir "media/videos"; EvSleep 2; EvUuid] = [].
Proof.
  split; [reflexivity|].
  exact (mock_generate_offline (Scenario.service_env Scenario.missing_parent)
           Scenario.mock_config 0 42 "dance video" ["p1.jpg"] None
           Scenario.fresh_world (Raise Scenario.file_not_found)
           {| trace := [EvMkdir "media/videos"; EvSleep 2; EvUuid];
              files := ∅ |} eq_refl eq_refl).
Defined.

(** ** Further properties of the polling loop *)

Section PollingOutcomes.
Context (E : Env) (api_key api_url : string) (remote_job_id : pyval).
Context (max_wait start_time : Z).

Local Abbreviation get := (status_request E api_url api_key remote_job_id).
Local Abbreviation loop fuel :=
  (poll_loop E fuel api_key api_url remote_job_id max_wait start_time).

(** X8: a status response is read as pending exactly when its status
    code is not 200, or its body is a JSON object whose ["status"] entry
    is missing or is neither ["completed"] nor ["failed"].  (A 200
    response whose body is not a JSON object is not read as pending: the
    poller raises.) *)
Theorem reads_as_pending_iff (response : Response) :
  reads_as_pending E remote_job_id response ↔
  status_code response ≠ 200
  ∨ ∃ d status,
      json response = Ret (PyDict d)
      ∧ py_get E (PyDict d) "status" (PyStr "pending") = Ret status
      ∧ py_eq_str status "completed" = false
      ∧ py_eq_str status "failed" = false.
Proof.
  split.
  - intros Hpending.
    destruct (Z.eqb_spec (status_code response) 200) as [Hcode|Hcode];
      [right|by left].
    specialize (Hpending {| trace := []; files := ∅ |}).
    unfold poll_response, bind, lift, ret in Hpending.
    rewrite Hcode in Hpending. simpl in Hpending.
    destruct (json response) as [data| |]; [|discriminate..].
    destruct data as [| | | | |d]; simpl in Hpending; try discriminate.
    destruct (list_find _ d) as [[? [? status]]|] eqn:Hfind;
      (destruct (py_eq_str _ "completed") eqn:Hc;
       [destruct (list_find (λ kv, kv.1 = "video_url") d) as [[? [? ?]]|];
          discriminate|]);
      (destruct (py_eq_str _ "failed") eqn:Hf;
       [destruct (list_find (λ kv, kv.1 = "error") d) as [[? [? ?]]|];
          discriminate|]);
      eexists d, _; simpl; rewrite Hfind; done.
  - intros [Hcode | (d & status & Hjson & Hstatus & Hc & Hf)] w.
    + unfold poll_response.
      destruct (Z.eqb_spec (status_code response) 200); [done|reflexivity].
    + unfold poll_response, bind, lift, ret.
      destruct (status_code response =? 200); [|reflexivity].
      rewrite Hjson, Hstatus, Hc, Hf. reflexivity.
Qed.

Lemma network_calls_poll_cycle (n : nat) (w : World) :
  network_calls (trace (Nat.iter n (poll_cycle get) w))
    = replicate n get ++ network_calls (trace w).
Proof.
  induction n as [|n IH]; [reflexivity|]. simpl. by rewrite IH.
Qed.

(** [n] turns on responses that read as pending. *)
Lemma poll_loop_pending_cycles (n fuel : nat) (w : World) :
  (∀ i, (i < n)%nat →
     timedelta_seconds
       (elapsed E start_time (Nat.iter i (poll_cycle get) w)) < max_wait
     ∧ ∃ response,
         env_http E (EvNow :: trace (Nat.iter i (poll_cycle get) w)) get
           = Ret response
         ∧ reads_as_pending E remote_job_id response) →
  loop (n + fuel) w = loop fuel (Nat.iter n (poll_cycle get) w).
Proof.
  revert w. induction n as [|n IH]; intros w Hcycles; [reflexivity|].
  destruct (Hcycles 0%nat ltac:(lia)) as (Hcheck & response & Hget & Hpending).
  rewrite Nat.iter_succ_r. change (S n + fuel)%nat with (S (n + fuel)).
  rewrite (poll_loop_cycle E api_key api_url remote_job_id max_wait start_time
             (n + fuel) w response Hcheck Hget Hpending).
  apply IH. intros i Hi. rewrite <- Nat.iter_succ_r. apply Hcycles. lia.
Qed.

(** X9: when the first [n] status requests are answered by responses
    that read as pending and the next one by a response with a verdict
    (completed or failed), each before the deadline, the poller returns
    that verdict after exactly [n + 1] status requests and [n] sleeps:
    it stops at the first terminal answer. *)
Theorem poll_stops_at_first_verdict (n fuel : nat) (w : World)
    (response : Response) (result : gmap string pyval) :
  (∀ i, (i < n)%nat →
     timedelta_seconds
       (elapsed E start_time (Nat.iter i (poll_cycle get) w)) < max_wait
     ∧ ∃ pending,
         env_http E (EvNow :: trace (Nat.iter i (poll_cycle get) w)) get
           = Ret pending
         ∧ reads_as_pending E remote_job_id pending) →
  timedelta_seconds
    (elapsed E start_time (Nat.iter n (poll_cycle get) w)) < max_wait →
  env_http E (EvNow :: trace (Nat.iter n (poll_cycle get) w)) get
    = Ret response →
  (∀ w0, poll_response E remote_job_id response w0 = (Ret (Some result), w0)) →
  loop (n + S fuel) w
    = (Ret result,
       record_event (EvHttp get)
         (record_event EvNow (Nat.iter n (poll_cycle get) w)))
  ∧ network_calls
      (trace (record_event (EvHttp get)
                (record_event EvNow (Nat.iter n (poll_cycle get) w))))
    = replicate (S n) get ++ network_calls (trace w).
Proof.
  intros Hcycles Hcheck Hget Hverdict. split.
  - rewrite (poll_loop_pending_cycles n (S fuel) w Hcycles). simpl.
    unfold bind at 1, datetime_now.
    fold (elapsed E start_time (Nat.iter n (poll_cycle get) w)).
    destruct (Z.ltb_spec
                (timedelta_seconds
                   (elapsed E start_time (Nat.iter n (poll_cycle get) w)))
                max_wait); [|lia].
    unfold bind at 1, http. simpl. unfold status_request in *.
    rewrite Hget. unfold bind at 1. rewrite Hverdict. reflexivity.
  - simpl. by rewrite network_calls_poll_cycle.
Qed.

End PollingOutcomes.

Lemma poll_stops_at_first_verdict_witness :
  ∃ result w',
    poll_loop (Scenario.completes_after 2) 10 "sk-test"
      "https://api.seedance.example.com/v1" (PyStr "remote-1") 300 0
      Scenario.fresh_world = (Ret result, w')
    ∧ result !! "status" = Some (PyStr "completed")
    ∧ length (network_calls (trace w')) = 3%nat.
Proof.
  pose proof (poll_stops_at_first_verdict (Scenario.completes_after 2)
                "sk-test" "https://api.seedance.example.com/v1"
                (PyStr "remote-1") 300 0 2 7 Scenario.fresh_world
                (Scenario.json_response
                  (PyDict [("status", PyStr "completed");
                           ("video_url", PyStr "https://cdn.example.com/v.mp4")]))
                (list_to_map
                   [("job_id", PyStr "remote-1");
                    ("status", PyStr "completed");
                    ("video_url", PyStr "https://cdn.example.com/v.mp4")]))
    as Hrun.
  destruct Hrun as [Hrun Hcalls].
  - intros i Hi. destruct i as [|[|i]]; [| |lia].
    + split; [reflexivity|]. eexists. split; [reflexivity|].
      intros w0. reflexivity.
    + split; [reflexivity|]. eexists. split; [reflexivity|].
      intros w0. reflexivity.
  - reflexivity.
  - reflexivity.
  - intros w0. reflexivity.
  - eexists _, _. split; [exact Hrun|]. split; [reflexivity|].
    rewrite Hcalls. reflexivity.
Defined.

(** ** Outcomes of the real path *)

Section RealOutcomes.
Context (E : Env) (config : Config).

Lemma failed_result_well_formed job_id error :
  well_formed_result (failed_result job_id error).
Proof. split; [by eexists|]. right. split; [done|]. split; [by eexists|done]. Qed.

Lemma poll_response_shape remote_job_id response w result w' :
  poll_response E remote_job_id response w = (Ret (Some result), w') →
  poll_result_shape result.
Proof.
  unfold poll_response, bind, lift, ret.
  repeat case_match; intros Heq; simplify_eq.
  - split; [by eexists|]. split; [done|]. left.
    split; [done|]. split; [by eexists|done].
  - split; [by eexists|]. split; [done|]. right.
    split; [done|by eexists].
Qed.

Lemma poll_loop_shape fuel api_key api_url remote_job_id max_wait start_time
    w result w' :
  poll_loop E fuel api_key api_url remote_job_id max_wait start_time w
    = (Ret result, w') →
  poll_result_shape result.
Proof.
  assert (Htimeout : poll_result_shape (timeout_result remote_job_id)).
  { split; [by eexists|]. split; [done|]. right. split; [done|by eexists]. }
  revert w. induction fuel as [|fuel IH]; intros w; simpl;
    unfold bind at 1, datetime_now;
    destruct (timedelta_seconds _ <? max_wait).
  - discriminate.
  - intros [= <- _]. exact Htimeout.
  - intros Hrun.
    apply bind_Ret in Hrun as (response & w1 & _ & Hrun).
    apply bind_Ret in Hrun as (verdict & w2 & Hverdict & Hrun).
    destruct verdict as [r|].
    + injection Hrun as <- _. by eapply poll_response_shape.
    + apply bind_Ret in Hrun as ([] & w3 & _ & Hrun). by apply IH in Hrun.
  - intros [= <- _]. exact Htimeout.
Qed.

Lemma real_generate_body_well_formed fuel api_key api_url job_id prompt photos
    w result w' :
  real_generate_body E config fuel api_key api_url job_id prompt photos w
    = (Ret result, w') →
  well_formed_result result.
Proof.
  unfold real_generate_body. intros Hbody.
  apply bind_Ret in Hbody as (uploaded & w1 & _ & Hbody).
  destruct (negb (truthy (PyList uploaded))).
  { injection Hbody as <- _. apply failed_result_well_formed. }
  apply bind_Ret in Hbody as (job_response & w2 & _ & Hbody).
  destruct (negb (status_code job_response =? 200)).
  { injection Hbody as <- _. apply failed_result_well_formed. }
  apply bind_Ret in Hbody as (data & w3 & _ & Hbody).
  apply bind_Ret in Hbody as (remote_job_id & w4 & _ & Hbody).
  apply bind_Ret in Hbody as (polled & w5 & Hpoll & Hbody).
  unfold _poll_for_completion in Hpoll.
  apply bind_Ret in Hpoll as (start_time & w6 & _ & Hpoll).
  apply poll_loop_shape in Hpoll as (Hid & Hnopath & Hshape).
  apply bind_Ret in Hbody as (status & w7 & Hstatus & Hbody).
  unfold lift, result_getitem in Hstatus.
  destruct (polled !! "status") as [st|] eqn:Hst; [|discriminate].
  injection Hstatus as -> _.
  destruct (py_eq_str status "completed") eqn:Hcompleted.
  - apply bind_Ret in Hbody as (video_url & w8 & _ & Hbody).
    apply bind_Ret in Hbody as ([] & w9 & _ & Hbody).
    apply bind_Ret in Hbody as (video_response & w10 & _ & Hbody).
    apply bind_Ret in Hbody as ([] & w11 & _ & Hbody).
    injection Hbody as <- _.
    destruct Hshape as [(Hs & _ & Herr) | (Hs & _)].
    + split; [by rewrite lookup_insert_ne|]. left.
      split; [by rewrite lookup_insert_ne, Hst|].
      split; [rewrite lookup_insert_eq; by eexists|].
      by rewrite lookup_insert_ne.
    + injection Hs as ->. discriminate Hcompleted.
  - injection Hbody as <- _.
    destruct Hshape as [(Hs & _ & _) | (Hs & Herr)].
    + injection Hs as ->. discriminate Hcompleted.
    + split; [exact Hid|]. right. rewrite Hst. done.
Qed.

(** X10: every result [generate_video] returns, in mock or in real mode,
    has a job id and is either completed with a video path and no error,
    or failed with an error and no video path. *)
Theorem generate_video_result_shape fuel user_id prompt photos job_id w
    result w' :
  generate_video E config fuel user_id prompt photos job_id w
    = (Ret result, w') →
  well_formed_result result.
Proof.
  rewrite generate_video_dispatch. destruct (mock_mode config).
  - unfold _mock_generate. intros Hrun.
    apply bind_Ret in Hrun as ([] & w1 & _ & Hrun).
    apply bind_Ret in Hrun as ([] & w2 & _ & Hrun).
    apply bind_Ret in Hrun as ([] & w3 & _ & Hrun).
    injection Hrun as <- _.
    split; [by eexists|]. left. split; [done|]. split; [by eexists|done].
  - unfold _real_generate.
    destruct (negb (truthy (PyStr (seedance_api_key config)))).
    { intros [= <- _]. apply failed_result_well_formed. }
    unfold try_except.
    destruct (real_generate_body _ _ _ _ _ _ _ _ _) as [[r|e|] w0] eqn:Hbody.
    + intros [= <- _]. by eapply real_generate_body_well_formed.
    + destruct (exn_is_Exception e); [|discriminate].
      intros [= <- _]. apply failed_result_well_formed.
    + discriminate.
Qed.

End RealOutcomes.

Lemma generate_video_result_shape_witness :
  ∃ result w',
    generate_video (Scenario.completes_after 2) Scenario.real_config 10 42
      "dance video" ["p1.jpg"] (Some "vid_local") Scenario.fresh_world
      = (Ret result, w')
    ∧ well_formed_result result.
Proof.
  eexists _, _.
  refine ((λ Hrun, conj Hrun
             (generate_video_result_shape (Scenario.completes_after 2)
                Scenario.real_config 10 42 "dance video" ["p1.jpg"]
                (Some "vid_local") Scenario.fresh_world _ _ Hrun)) _).
  vm_compute. reflexivity.
Defined.

Section RealPhases.
Context (E : Env) (config : Config).

(** X11: in real mode with a key, when at least one photo was uploaded
    and the submit request is answered with a status code other than
    200, [generate_video] returns the failed result that carries the
    local job id and the raw text of that response; the submit is the
    last request issued, so the job is never polled. *)
Theorem submit_rejected fuel user_id prompt photos job_id w w1 uploaded
    job_response :
  mock_mode config = false →
  seedance_api_key config ≠ "" →
  upload_photos E (seedance_api_key config) (seedance_api_url config)
    photos [] (after_job_id job_id w) = (Ret uploaded, w1) →
  uploaded ≠ [] →
  env_http E (trace w1)
    (submit_request (seedance_api_url config) (seedance_api_key config)
       prompt uploaded) = Ret job_response →
  status_code job_response ≠ 200 →
  generate_video E config fuel user_id prompt photos job_id w
    = (Ret (failed_result (PyStr (chosen_job_id E job_id w))
              (PyStr (text job_response))),
       record_event
         (EvHttp (submit_request (seedance_api_url config)
                    (seedance_api_key config) prompt uploaded)) w1)
  ∧ network_calls (trace w1)
      = reverse (upload_request (seedance_api_url config)
                   (seedance_api_key config) <$> photos)
          ++ network_calls (trace w).
Proof.
  intros Hmock Hkey Hupload Hne Hsubmit Hcode. split.
  - rewrite (generate_video_real _ _ _ _ _ _ _ _ Hmock Hkey).
    unfold try_except, real_generate_body. unfold bind at 1.
    rewrite Hupload. destruct uploaded as [|u us]; [done|]. simpl.
    unfold bind at 1, http. unfold submit_request in Hsubmit.
    rewrite Hsubmit.
    destruct (Z.eqb_spec (status_code job_response) 200); [done|].
    reflexivity.
  - rewrite (upload_photos_calls _ _ _ _ _ _ _ _ Hupload).
    by rewrite network_calls_after_job_id.
Qed.

(** X12: in real mode, once the poller has returned a completed verdict
    with a video URL, and the directory can be created, the download is
    answered and the file can be written, [generate_video] returns that
    verdict with [video_path] added; the file named after the local job
    id then holds the downloaded bytes, and the download carried no
    credentials. *)
Theorem completed_job_is_stored fuel user_id prompt photos job_id w
    w1 uploaded job_response data remote_job_id polled w2 video_url
    video_response :
  mock_mode config = false →
  seedance_api_key config ≠ "" →
  upload_photos E (seedance_api_key config) (seedance_api_url config)
    photos [] (after_job_id job_id w) = (Ret uploaded, w1) →
  uploaded ≠ [] →
  env_http E (trace w1)
    (submit_request (seedance_api_url config) (seedance_api_key config)
       prompt uploaded) = Ret job_response →
  status_code job_response = 200 →
  json job_response = Ret data →
  py_getitem E data "job_id" = Ret remote_job_id →
  _poll_for_completion E fuel (seedance_api_key config)
    (seedance_api_url config) remote_job_id 300
    (record_event
       (EvHttp (submit_request (seedance_api_url config)
                  (seedance_api_key config) prompt uploaded)) w1)
    = (Ret polled, w2) →
  polled !! "status" = Some (PyStr "completed") →
  polled !! "video_url" = Some video_url →
  env_fs E (trace w2) (EvMkdir (video_storage_path config)) = None →
  env_http E (EvMkdir (video_storage_path config) :: trace w2)
    (Get video_url None) = Ret video_response →
  env_fs E (EvHttp (Get video_url None)
            :: EvMkdir (video_storage_path config) :: trace w2)
    (EvWriteBytes (video_path_of E config (chosen_job_id E job_id w))
       (content video_response)) = None →
  ∃ w',
    generate_video E config fuel user_id prompt photos job_id w
      = (Ret (<["video_path" :=
                 PyStr (video_path_of E config (chosen_job_id E job_id w))]>
                polled), w')
    ∧ files w' !! video_path_of E config (chosen_job_id E job_id w)
        = Some (content video_response)
    ∧ network_calls (trace w')
        = Get video_url None :: network_calls (trace w2).
Proof.
  intros Hmock Hkey Hupload Hne Hsubmit Hcode Hjson Hid Hpoll Hstatus Hurl
    Hmkdir Hget Hwrite.
  rewrite (generate_video_real _ _ _ _ _ _ _ _ Hmock Hkey).
  unfold try_except, real_generate_body. unfold bind at 1.
  rewrite Hupload. destruct uploaded as [|u us]; [done|]. simpl.
  unfold bind at 1, http at 1. unfold submit_request in Hsubmit, Hpoll.
  rewrite Hsubmit, Hcode. simpl.
  unfold bind at 1, lift at 1. rewrite Hjson.
  unfold bind at 1, lift at 1. rewrite Hid.
  unfold bind at 1. unfold record_event in Hpoll. simpl in Hpoll.
  unfold record_event. simpl. rewrite Hpoll.
  unfold bind at 1, lift at 1, result_getitem at 1. rewrite Hstatus. simpl.
  unfold bind at 1, lift at 1, result_getitem at 1. rewrite Hurl.
  unfold bind at 1, mkdir. rewrite Hmkdir. simpl.
  unfold bind at 1, http. simpl. rewrite Hget.
  unfold bind at 1, write_bytes. simpl.
  fold (video_path_of E config (chosen_job_id E job_id w)).
  rewrite Hwrite.
  eexists. split; [reflexivity|]. simpl. split; [|reflexivity].
  apply lookup_insert_eq.
Qed.

End RealPhases.

Lemma submit_rejected_witness :
  ∃ w',
    generate_video (Scenario.service_env Scenario.rejecting_submit)
      Scenario.real_config 10 42 "dance video" ["p1.jpg"] (Some "vid_local")
      Scenario.fresh_world
    = (Ret (failed_result (PyStr "vid_local")
              (PyStr "prompt rejected by moderation")), w')
    ∧ network_calls (trace w')
      = [submit_request "https://api.seedance.example.com/v1" "sk-test"
           "dance video" [PyStr "file-1"];
         upload_request "https://api.seedance.example.com/v1" "sk-test"
           "p1.jpg"].
Proof.
  destruct (submit_rejected (Scenario.service_env Scenario.rejecting_submit)
              Scenario.real_config 10 42 "dance video" ["p1.jpg"]
              (Some "vid_local") Scenario.fresh_world
              {| trace :=
                   [EvHttp (upload_request "https://api.seedance.example.com/v1"
                              "sk-test" "p1.jpg");
                    EvOpen "p1.jpg"];
                 files := ∅ |}
              [PyStr "file-1"]
              (Scenario.error_response 422 "prompt rejected by moderation"))
    as [Hrun Hcalls].
  - reflexivity.
  - discriminate.
  - reflexivity.
  - discriminate.
  - reflexivity.
  - simpl. lia.
  - eexists. split; [exact Hrun|]. reflexivity.
Defined.

Lemma completed_job_is_stored_witness :
  ∃ result w',
    generate_video (Scenario.service_env Scenario.healthy)
      Scenario.real_config 10 42 "dance video" ["p1.jpg"] (Some "vid_local")
      Scenario.fresh_world = (Ret result, w')
    ∧ result !! "video_path" = Some (PyStr "media/videos/vid_local.mp4")
    ∧ files w' !! "media/videos/vid_local.mp4" = Some "MP4DATA".
Proof.
  destruct (completed_job_is_stored (Scenario.service_env Scenario.healthy)
              Scenario.real_config 10 42 "dance video" ["p1.jpg"]
              (Some "vid_local") Scenario.fresh_world
              {| trace :=
                   [EvHttp (upload_request "https://api.seedance.example.com/v1"
                              "sk-test" "p1.jpg");
                    EvOpen "p1.jpg"];
                 files := ∅ |}
              [PyStr "file-1"]
              (Scenario.json_response (PyDict [("job_id", PyStr "remote-1")]))
              (PyDict [("job_id", PyStr "remote-1")])
              (PyStr "remote-1")
              (list_to_map
                 [("job_id", PyStr "remote-1");
                  ("status", PyStr "completed");
                  ("video_url", PyStr "https://cdn.example.com/v.mp4")])
              {| trace :=
                   [EvHttp (status_request
                              (Scenario.service_env Scenario.healthy)
                              "https://api.seedance.example.com/v1" "sk-test"
                              (PyStr "remote-1"));
                    EvNow; EvNow;
                    EvHttp (submit_request "https://api.seedance.example.com/v1"
                              "sk-test" "dance video" [PyStr "file-1"]);
                    EvHttp (upload_request "https://api.seedance.example.com/v1"
                              "sk-test" "p1.jpg");
                    EvOpen "p1.jpg"];
                 files := ∅ |}
              (PyStr "https://cdn.example.com/v.mp4")
              Scenario.video_response)
    as (w' & Hrun & Hfile & _).
  - reflexivity.
  - discriminate.
  - reflexivity.
  - discriminate.
  - reflexivity.
  - reflexivity.
  - reflexivity.
  - reflexivity.
  - reflexivity.
  - reflexivity.
  - reflexivity.
  - reflexivity.
  - reflexivity.
  - reflexivity.
  - eexists _, w'. split; [exact Hrun|]. split; [|exact Hfile].
    apply lookup_insert_eq.
Defined.

(** X13: when every photo can be opened and every upload is answered,
    the answers with status code 200 holding a JSON body with a
    ["file_id"], the upload loop returns, in the order of the photos, the
    file ids of the photos answered 200; a photo answered with another
    status code is skipped without an error. *)
Theorem upload_collects_accepted (E : Env) (api_key api_url : string)
    (answer : string → Response) (file_id : string → pyval)
    (photos : list string) (uploaded : list pyval) (w : World) :
  (∀ tr p, p ∈ photos → env_open E tr p = None) →
  (∀ tr p, p ∈ photos →
     env_http E tr (upload_request api_url api_key p) = Ret (answer p)) →
  (∀ p, p ∈ photos → status_code (answer p) = 200 →
     ∃ data, json (answer p) = Ret data
             ∧ py_getitem E data "file_id" = Ret (file_id p)) →
  ∃ w',
    upload_photos E api_key api_url photos uploaded w
      = (Ret (uploaded
              ++ omap (λ p, accepted_upload (answer p) (file_id p)) photos),
         w').
Proof.
  revert uploaded w. induction photos as [|p rest IH];
    intros uploaded w Hopen Hpost Hbody; simpl.
  - eexists. by rewrite app_nil_r.
  - unfold bind at 1, open_rb. rewrite Hopen by left. simpl.
    unfold bind at 1, http. unfold upload_request in Hpost.
    rewrite Hpost by left. unfold accepted_upload at 1.
    destruct (Z.eqb_spec (status_code (answer p)) 200) as [Hcode|Hcode].
    + destruct (Hbody p ltac:(left) Hcode) as (data & Hjson & Hid).
      unfold bind at 1. unfold bind at 1, lift at 1. rewrite Hjson.
      unfold bind at 1, lift at 1. rewrite Hid. unfold ret at 1.
      destruct (IH (uploaded ++ [file_id p])
                  (record_event (EvHttp (PostFile (api_url +:+ "/upload") p api_key))
                     (record_event (EvOpen p) w))) as (w' & Hrun).
      * intros tr q Hq. apply Hopen. by right.
      * intros tr q Hq. apply Hpost. by right.
      * intros q Hq. apply Hbody. by right.
      * exists w'. rewrite Hrun. by rewrite <- app_assoc.
    + unfold bind at 1, ret at 1.
      destruct (IH uploaded
                  (record_event (EvHttp (PostFile (api_url +:+ "/upload") p api_key))
                     (record_event (EvOpen p) w))) as (w' & Hrun).
      * intros tr q Hq. apply Hopen. by right.
      * intros tr q Hq. apply Hpost. by right.
      * intros q Hq. apply Hbody. by right.
      * exists w'. exact Hrun.
Qed.

Lemma upload_collects_accepted_witness :
  ∃ w',
    upload_photos Scenario.picky_upload "sk-test"
      "https://api.seedance.example.com/v1" ["a.jpg"; "bad.jpg"; "c.jpg"] []
      Scenario.fresh_world
    = (Ret [PyStr "file-a.jpg"; PyStr "file-c.jpg"], w').
Proof.
  apply (upload_collects_accepted Scenario.picky_upload "sk-test"
           "https://api.seedance.example.com/v1" Scenario.picky_answer
           (λ p, PyStr ("file-" +:+ p)) ["a.jpg"; "bad.jpg"; "c.jpg"] []
           Scenario.fresh_world).
  - intros tr p _. reflexivity.
  - intros tr p _. reflexivity.
  - intros p _. unfold Scenario.picky_answer.
    destruct (String.eqb p "bad.jpg"); simpl; [lia|].
    intros _. eexists. split; reflexivity.
Defined.

(** ** Errors of the status requests *)

Section StatusErrors.
Context (E : Env) (config : Config).


End StatusErrors.


(** ** Properties of config.py *)

Section ConfigFile.
Context (lib : config.PyLib).

Lemma setdefault_keeps key value environ r environ' k v :
  config.setdefault lib key value environ = (r, environ') →
  environ !! k = Some v → environ' !! k = Some v.
Proof.
  unfold config.setdefault.
  destruct (environ !! key) as [old|] eqn:Hkey.
  - intros [= <- <-]. done.
  - destruct (config.putenv_error lib key value); intros [= <- <-]; [done|].
    intros Hk. rewrite lookup_insert_ne; [done|]. congruence.
Qed.

Lemma read_lines_keeps lines environ r environ' k v :
  config.read_lines lib lines environ = (r, environ') →
  environ !! k = Some v → environ' !! k = Some v.
Proof.
  revert environ. induction lines as [|line rest IH]; intros environ; simpl.
  - intros [= <- <-]. done.
  - destruct (config.parse_line line) as [[key value]|]; [|apply IH].
    destruct (config.setdefault lib key value environ) as [[[]|e|] environ1]
      eqn:Hset; intros Hrun Hk.
    + eapply IH; [exact Hrun|]. by eapply setdefault_keeps.
    + injection Hrun as <- <-. by eapply setdefault_keeps.
    + injection Hrun as <- <-. by eapply setdefault_keeps.
Qed.

(** X14: [Config.load] never changes or removes a variable the process
    environment already holds, however it ends: what the [.env] file
    says about such a variable is ignored. *)
Theorem load_keeps_environment file environ r environ' k v :
  config.load lib file environ = (r, environ') →
  environ !! k = Some v →
  environ' !! k = Some v.
Proof.
  unfold config.load. destruct file as [|lines read_error].
  - intros [= _ <-]. done.
  - destruct (config.read_lines lib lines environ) as [[[]|e|] environ1]
      eqn:Hread; intros [= _ <-]; by eapply read_lines_keeps.
Qed.



End ConfigFile.

Lemma load_keeps_environment_witness :
  snd (config.load Scenario.sample_lib
         (config.File Scenario.sample_env_file None)
         {[ "MOCK_MODE" := "true" ]}) !! "MOCK_MODE" = Some "true".
Proof.
  apply (load_keeps_environment Scenario.sample_lib
           (config.File Scenario.sample_env_file None)
           {[ "MOCK_MODE" := "true" ]}
           (fst (config.load Scenario.sample_lib
                   (config.File Scenario.sample_env_file None)
                   {[ "MOCK_MODE" := "true" ]}))
           (snd (config.load Scenario.sample_lib
                   (config.File Scenario.sample_env_file None)
                   {[ "MOCK_MODE" := "true" ]}))
           "MOCK_MODE" "true").
  - apply surjective_pairing.
  - reflexivity.
Defined.


(** ** The generator built from the configuration *)

Section ConfiguredGenerator.
Context (lib : config.PyLib) (E : Env).

(** What a loaded configuration holds for the generator. *)
Lemma load_generator_fields file environ c environ' :
  config.load lib file environ = (Ret c, environ') →
  config.mock_mode c
    = String.eqb (str_lower (config.getenv environ' "MOCK_MODE" "true")) "true"
  ∧ config.seedance_api_key c = config.getenv environ' "SEEDANCE_API_KEY" "".
Proof.
  unfold config.load.
  destruct (match file with
            | config.NoFile => (Ret tt, environ)
            | config.File lines read_error =>
                match config.read_lines lib lines environ with
                | (Ret _, environ1) => (raise_if read_error, environ1)
                | failure => failure
                end
            end) as [read environ1].
  intros [= Hc <-]. destruct read as [[]|e|]; [|discriminate..].
  simpl in Hc. unfold config.from_environ, config.outcome_bind in Hc.
  repeat case_match; try discriminate.
  injection Hc as <-. by split.
Qed.

Lemma mock_mode_is_silent (config : Config) fuel user_id prompt photos job_id
    w o w' :
  mock_mode config = true →
  generate_video E config fuel user_id prompt photos job_id w = (o, w') →
  network_calls (trace w') = network_calls (trace w).
Proof.
  intros Hmock Hrun.
  assert (Hemits : emits (λ _, False)
            (generate_video E config fuel user_id prompt photos job_id)).
  { unfold generate_video. rewrite Hmock.
    emits_step; [destruct job_id; repeat emits_step|].
    apply emits_mock_generate. }
  destruct (Hemits _ _ _ Hrun) as (new & Htr & Hnew).
  destruct new as [|r new]; [exact Htr|].
  by apply Forall_cons in Hnew as [[] _].
Qed.

(** X16: a generator whose configuration was loaded while [MOCK_MODE]
    is not set, in the environment or in the [.env] file, runs in mock
    mode: no call of [generate_video] issues a request, whatever API
    key is configured. *)
Theorem unset_mock_mode_is_offline file environ c environ' fuel user_id
    prompt photos job_id w o w' :
  config.load lib file environ = (Ret c, environ') →
  environ' !! "MOCK_MODE" = None →
  generate_video E (generator_config c) fuel user_id prompt photos job_id w
    = (o, w') →
  network_calls (trace w') = network_calls (trace w).
Proof.
  intros Hload Hunset.
  destruct (load_generator_fields _ _ _ _ Hload) as [Hmock _].
  apply mock_mode_is_silent. simpl. rewrite Hmock.
  unfold config.getenv. rewrite Hunset. reflexivity.
Qed.

(** X17: a generator whose configuration was loaded with [MOCK_MODE] set
    to a value whose lower-case form is not ["true"] (for example
    ["1"] or ["yes"]) and with no [SEEDANCE_API_KEY], or an empty one,
    answers every call of [generate_video] with the failed result
    "Seedance API key not configured", without any request. *)
Theorem mock_mode_off_without_key file environ c environ' value fuel user_id
    prompt photos job_id w :
  config.load lib file environ = (Ret c, environ') →
  environ' !! "MOCK_MODE" = Some value →
  str_lower value ≠ "true" →
  config.getenv environ' "SEEDANCE_API_KEY" "" = "" →
  generate_video E (generator_config c) fuel user_id prompt photos job_id w
    = (Ret (failed_result (PyStr (chosen_job_id E job_id w))
              (PyStr "Seedance API key not configured")),
       after_job_id job_id w)
  ∧ network_calls (trace (after_job_id job_id w)) = network_calls (trace w).
Proof.
  intros Hload Hset Hvalue Hkey.
  destruct (load_generator_fields _ _ _ _ Hload) as [Hmock Hapikey].
  split; [|apply network_calls_after_job_id].
  rewrite generate_video_dispatch. simpl. rewrite Hmock.
  unfold config.getenv at 1. rewrite Hset.
  destruct (String.eqb_spec (str_lower value) "true") as [Heq|_]; [done|].
  unfold _real_generate. simpl. rewrite Hapikey, Hkey. reflexivity.
Qed.

End ConfiguredGenerator.

Lemma unset_mock_mode_is_offline_witness :
  ∃ c,
    config.load Scenario.sample_lib config.NoFile
      {[ "SEEDANCE_API_KEY" := "sk-live" ]}
    = (Ret c, {[ "SEEDANCE_API_KEY" := "sk-live" ]})
    ∧ network_calls
        (trace (snd (generate_video (Scenario.service_env Scenario.healthy)
                       (generator_config c) 10 42 "dance video" ["p1.jpg"]
                       (Some "vid_local") Scenario.fresh_world))) = [].
Proof.
  eexists.
  refine ((λ Hload, conj Hload
             (unset_mock_mode_is_offline Scenario.sample_lib
                (Scenario.service_env Scenario.healthy) config.NoFile
                {[ "SEEDANCE_API_KEY" := "sk-live" ]} _
                {[ "SEEDANCE_API_KEY" := "sk-live" ]} 10 42 "dance video"
                ["p1.jpg"] (Some "vid_local") Scenario.fresh_world _ _
                Hload eq_refl (surjective_pairing _))) _).
  vm_compute. reflexivity.
Defined.

Lemma mock_mode_off_without_key_witness :
  ∃ c,
    config.load Scenario.sample_lib config.NoFile {[ "MOCK_MODE" := "1" ]}
    = (Ret c, {[ "MOCK_MODE" := "1" ]})
    ∧ generate_video (Scenario.service_env Scenario.healthy)
        (generator_config c) 10 42 "dance video" ["p1.jpg"]
        (Some "vid_local") Scenario.fresh_world
      = (Ret (failed_result (PyStr "vid_local")
                (PyStr "Seedance API key not configured")),
         Scenario.fresh_world).
Proof.
  eexists.
  refine ((λ Hload, conj Hload
             (proj1 (mock_mode_off_without_key Scenario.sample_lib
                       (Scenario.service_env Scenario.healthy) config.NoFile
                       {[ "MOCK_MODE" := "1" ]} _ {[ "MOCK_MODE" := "1" ]}
                       "1" 10 42 "dance video" ["p1.jpg"] (Some "vid_local")
                       Scenario.fresh_world Hload eq_refl _ eq_refl))) _).
  - discriminate.
  - vm_compute. reflexivity.
Defined.
